(** * Vrindavan Auditor: a shallow embedding of [app.py]

    The program is a sequential pipeline: extract text from a PDF, pick a
    generative model, send an audit prompt, split the [###]-delimited reply
    into 17 fields, summarise per salesperson, and build a styled workbook.

    Python [str] values are sequences of Unicode code points, so they are
    modelled as [list N]; string literals of the source are written as UTF-8
    text and decoded by [py].  Dictionaries are finite maps ([gmap]).
    External libraries (PyPDF2, the generation API, [json], pandas'
    [to_csv], the Unicode case tables) are parameters of the sections that
    use them: the theorems hold whatever they answer.  Two library calls
    whose behaviour the program depends on are modelled from the libraries:
    the constructor of a model handle, and the writing of a frame to a sheet
    by pandas and openpyxl, with the texts and frames they refuse. *)

From Stdlib Require Import NArith Strings.String Strings.Ascii Strings.Byte.
From stdpp Require Import gmap list.

Set Warnings "-register-all,-clear-no-such-hyp".

Local Open Scope N_scope.
Local Open Scope nat_scope.

(** ** Python strings *)

Abbreviation char := N (only parsing).
Abbreviation pystr := (list N) (only parsing).

(** Decoder for the UTF-8 text of the source's literals. *)
Fixpoint utf8_decode (pending : nat) (acc : N) (bs : list N) : pystr :=
  match bs with
  | [] => []
  | b :: rest =>
      match pending with
      | O =>
          if (b <? 128)%N then b :: utf8_decode 0 0%N rest
          else if (b <? 224)%N then utf8_decode 1 (N.land b 31) rest
          else if (b <? 240)%N then utf8_decode 2 (N.land b 15) rest
          else utf8_decode 3 (N.land b 7) rest
      | S p =>
          let acc' := N.lor (N.shiftl acc 6) (N.land b 63) in
          match p with
          | O => acc' :: utf8_decode 0 0%N rest
          | S _ => utf8_decode p acc' rest
          end
      end
  end.

Definition py (s : string) : pystr :=
  utf8_decode 0 0%N (map Byte.to_N (list_byte_of_string s)).

(** [str.isspace] on one code point: the characters [str.strip()] removes. *)
Definition isspace (c : char) : bool :=
  ((9 <=? c) && (c <=? 13) || (28 <=? c) && (c <=? 32)
   || (c =? 133) || (c =? 160) || (c =? 5760)
   || (8192 <=? c) && (c <=? 8202)
   || (c =? 8232) || (c =? 8233) || (c =? 8239) || (c =? 8287)
   || (c =? 12288))%N.

Fixpoint lstrip (s : pystr) : pystr :=
  match s with
  | [] => []
  | c :: t => if isspace c then lstrip t else s
  end.

Definition rstrip (s : pystr) : pystr := reverse (lstrip (reverse s)).

(** [s.strip()] *)
Definition strip (s : pystr) : pystr := rstrip (lstrip s).

(** [s.startswith(p)] *)
Fixpoint startswith (p s : pystr) : bool :=
  match p, s with
  | [], _ => true
  | _ :: _, [] => false
  | a :: p', b :: s' => (a =? b)%N && startswith p' s'
  end.

(** [sub in s] for strings *)
Fixpoint contains (sub s : pystr) : bool :=
  startswith sub s ||
  match s with
  | [] => false
  | _ :: t => contains sub t
  end.

(** [s.split(sep)] for a non-empty separator: a left-to-right scan for
    non-overlapping occurrences.  [skip] counts the characters of a matched
    separator still to be passed over, [cur] is the current segment,
    reversed. *)
Fixpoint split_scan (sep : pystr) (skip : nat) (cur s : pystr) : list pystr :=
  match s with
  | [] => [reverse cur]
  | c :: t =>
      match skip with
      | S k => split_scan sep k cur t
      | O =>
          if startswith sep s
          then reverse cur :: split_scan sep (length sep - 1) [] t
          else split_scan sep 0 (c :: cur) t
      end
  end.

Definition split (sep s : pystr) : list pystr := split_scan sep 0 [] s.

(** [sep.join(parts)] *)
Fixpoint join (sep : pystr) (parts : list pystr) : pystr :=
  match parts with
  | [] => []
  | [p] => p
  | p :: rest => p ++ sep ++ join sep rest
  end.

(** [s.replace(old, new)] for a non-empty [old]. *)
Definition replace (old new s : pystr) : pystr := join new (split old s).

Definition is_ascii (c : char) : bool := (c <? 128)%N.

Definition ascii_lower (c : char) : char :=
  if ((65 <=? c) && (c <=? 90))%N then (c + 32)%N else c.

(** Truthiness of a string: [if s:] *)
Definition truthy (s : pystr) : bool :=
  match s with [] => false | _ :: _ => true end.

(** The empty string, the newline and the double quote. *)
Definition EMPTY : pystr := [].
Definition NL : pystr := [10%N].
Definition DQ : pystr := [34%N].

(** ** Text Extractor ([extract_text_from_pdf]) *)

Section Extractor.

(** PyPDF2.  [PdfReader b] is [None] when building the reader or walking
    [reader.pages] raises; [extract_text p] is [None] when the page raises. *)
Variable Page : Type.
Variable PdfReader : list byte -> option (list Page).
Variable extract_text : Page -> option pystr.

(** The [for page in reader.pages] loop inside the [try] block. *)
Fixpoint extract_loop (pages : list Page) (text : pystr) : option pystr :=
  match pages with
  | [] => Some text
  | page :: rest =>
      t ← extract_text page;
      extract_loop rest (text ++ (t ++ NL))
  end.

Definition extract_text_from_pdf (file_bytes : list byte) : pystr :=
  match PdfReader file_bytes ≫= (λ pages, extract_loop pages []) with
  | Some text => text
  | None => []  (* except Exception: the empty string *)
  end.

End Extractor.

(** ** Model Selector ([get_gemini_model]) *)

Record ModelInfo := {
  name : pystr;
  supported_generation_methods : list pystr
}.

Record GenerativeModel := { model_name : pystr }.

(** Truthiness of [chosen_model], which is [None] or a string. *)
Definition truthy_opt (o : option pystr) : bool :=
  match o with
  | Some s => truthy s
  | None => false
  end.

Section Selector.

(** [str.lower] takes the ASCII path on ASCII strings; beyond ASCII it
    follows the Unicode case tables of the runtime. *)
Variable unicode_lower : pystr -> pystr.

Definition lower (s : pystr) : pystr :=
  if forallb is_ascii s then map ascii_lower s else unicode_lower s.

Definition is_flash (m : pystr) : bool :=
  contains (py "flash") (lower m) && contains (py "1.5") m.

Definition is_pro (m : pystr) : bool :=
  contains (py "pro") (lower m) && contains (py "1.5") m.

(** Lines 45-53: the choice among [all_models]. *)
Definition select_model (all_models : list pystr) : option pystr :=
  let chosen_model := List.find is_flash all_models in
  let chosen_model :=
    if negb (truthy_opt chosen_model)
    then List.find is_pro all_models
    else chosen_model in
  let chosen_model :=
    if negb (truthy_opt chosen_model)
    then match all_models with
         | m :: _ => Some m
         | [] => chosen_model
         end
    else chosen_model in
  if truthy_opt chosen_model then chosen_model else None.

(** [genai.GenerativeModel(model_name)]: the client keeps the name it is
    given, after putting 'models/' before a name that holds no '/'. *)
Definition new_GenerativeModel (model_name : pystr) : GenerativeModel :=
  {| model_name :=
       if contains (py "/") model_name then model_name
       else py "models/" ++ model_name |}.

(** [genai.list_models()], [None] when the call raises (bad credential). *)
Variable list_models : pystr -> option (list ModelInfo).

Definition get_gemini_model (api_key : pystr) : option GenerativeModel :=
  match list_models api_key with
  | Some models =>
      let all_models := map name
            (filter (λ m, py "generateContent" ∈ supported_generation_methods m)
               models) in
      match select_model all_models with
      | Some chosen_model => Some (new_GenerativeModel chosen_model)
      | None => None
      end
  | None => None
  end.

End Selector.

(** ** The generation API and the session *)

Record Request := {
  req_model : GenerativeModel;
  req_prompt : pystr;
  req_safety : option (list (pystr * pystr))
}.

(** What [model.generate_content] does: it raises, or it returns a response
    whose [.text] is a string or raises in turn. *)
Inductive GenResult :=
| ApiError
| Response (text : option pystr).

(** The world threaded through the calls: the requests sent so far and the
    pauses taken (milliseconds), oldest first. *)
Record World := {
  requests : list Request;
  slept : list N
}.

Definition M (A : Type) : Type := World -> A * World.

Definition ret {A} (a : A) : M A := λ w, (a, w).

Definition bind {A B} (m : M A) (k : A -> M B) : M B :=
  λ w, let (a, w') := m w in k a w'.

Notation "'let*' x ':=' m 'in' k" := (bind m (λ x, k))
  (at level 10, x name, m at level 100, k at level 200).

(** [time.sleep] *)
Definition sleep (ms : N) : M unit :=
  λ w, (tt, {| requests := requests w; slept := slept w ++ [ms] |}).

(** ** Values and frames *)

(** A Python value as [json.loads] returns it; a number keeps its literal. *)
Inductive value :=
| JNull
| JBool (b : bool)
| JNumber (literal : pystr)
| JString (s : pystr)
| JArray (items : list value)
| JObject (members : list (pystr * value)).

(** A pandas frame: column labels and rows of cells, each row as long as
    [columns]. *)
Record DataFrame (C : Type) := {
  columns : list pystr;
  rows : list (list C)
}.
Arguments columns {C} _.
Arguments rows {C} _.

Fixpoint index_of (x : pystr) (l : list pystr) : option nat :=
  match l with
  | [] => None
  | y :: l' => if bool_decide (x = y) then Some 0 else S <$> index_of x l'
  end.

(** [df[label]]: the cells of a column ([None] inside: a missing cell),
    [None] for KeyError. *)
Definition column {C} (df : DataFrame C) (label : pystr) : option (list (option C)) :=
  i ← index_of label (columns df);
  Some (map (λ row, row !! i) (rows df)).

(** [df[mask]]: the rows where the boolean mask holds. *)
Fixpoint keep_rows {C} (rs : list (list C)) (mask : list bool) : list (list C) :=
  match rs, mask with
  | r :: rs', b :: mask' =>
      if b then r :: keep_rows rs' mask' else keep_rows rs' mask'
  | _, _ => []
  end.

Definition filter_rows {C} (df : DataFrame C) (mask : list bool) : DataFrame C :=
  {| columns := columns df; rows := keep_rows (rows df) mask |}.

(** [df[[c1, c2, ...]]]: a frame of the listed columns, [None] for KeyError. *)
Definition select_columns {C} (labels : list pystr) (df : DataFrame C)
  : option (DataFrame C) :=
  idxs ← mapM (λ c, index_of c (columns df)) labels;
  Some {| columns := labels;
          rows := map (λ row, omap (λ i, row !! i) idxs) (rows df) |}.

Definition SUMMARY_COLS : list pystr :=
  [ py "Customer Name"; py "Lead Intent"; py "📝 Brand Detail";
    py "📝 Value Detail"; py "Urgency: 6L+2L Offer" ].

Definition summary_sentinel (csm_name : pystr) : value :=
  JObject [ (py "CSM Name", JString csm_name);
            (py "Strengths", JString (py "Error"));
            (py "Areas of Improvement", JString (py "Error")) ].

(** ** Call Analyzer ([analyze_call]) *)

Definition ANALYZE_PROMPT_LINES : list pystr :=
  [ EMPTY;
    py "    You are a QA Auditor for 'The House of Abhinandan Lodha' (Navratna at Vrindavan).";
    py "    Analyze this sales call transcript. Output strictly in English.";
    EMPTY;
    py "    **Extract these 10 Fields:**";
    py "    1. Lead Intent (Pure Investor / Spiritual Buyer / Second-home / Mixed)";
    py "    2. Brand Trust (Yes/No + Detail)";
    py "    3. Value (Yes/No + Detail)";
    py "    4. ROI (Yes/No + Detail)";
    py "    5. Spiritual (Yes/No + Detail)";
    py "    6. Technical (Yes/No + Detail)";
    py "    7. Urgency: 6L+2L Offer (Did they use it?)";
    py "    8. Urgency: Price Movement (Did they use it?)";
    py "    9. Family Objections";
    py "    10. Pitch Flow Adherence %";
    EMPTY;
    py "    **OUTPUT FORMAT (Single Line separated by ###):**";
    py "    CSM Name###Customer Name###Lead Intent###Brand Trust (Yes/No)###Brand Trust Detail###Value (Yes/No)###Value Detail###ROI (Yes/No)###ROI Detail###Spiritual (Yes/No)###Spiritual Detail###Technical (Yes/No)###Technical Detail###Urgency: Offers###Urgency: Price Move###Family Objections###Pitch Flow %";
    py "    ";
    py "    **TRANSCRIPT:**";
    py "    " ].

Definition ANALYZE_PROMPT : pystr := join NL ANALYZE_PROMPT_LINES.

Definition safe : list (pystr * pystr) :=
  [ (py "HARM_CATEGORY_HARASSMENT", py "BLOCK_NONE");
    (py "HARM_CATEGORY_HATE_SPEECH", py "BLOCK_NONE");
    (py "HARM_CATEGORY_SEXUALLY_EXPLICIT", py "BLOCK_NONE");
    (py "HARM_CATEGORY_DANGEROUS_CONTENT", py "BLOCK_NONE") ].

(** [text[:30000]] *)
Definition MAX_TRANSCRIPT_CHARS : nat := N.to_nat 30000.

Definition SEP : pystr := py "###".
Definition PLACEHOLDER : pystr := py "-".

(** The keys of the returned dictionary, in the order of the literal;
    the key at position [i] is bound to [parts[i]]. *)
Definition FIELD_KEYS : list pystr :=
  [ py "CSM Name"; py "Customer Name"; py "Lead Intent";
    py "⚠️ Brand Trust"; py "📝 Brand Detail";
    py "⚠️ Value"; py "📝 Value Detail";
    py "⚠️ ROI"; py "📝 ROI Detail";
    py "⚠️ Spiritual"; py "📝 Spiritual Detail";
    py "⚠️ Technical"; py "📝 Technical Detail";
    py "Urgency: 6L+2L Offer"; py "Urgency: Price Movement";
    py "Family/Spouse Objections"; py "Pitch Flow Adherence" ].

(** [while len(parts) < 17: parts.append("-")]; the loop runs at most 17
    times, which is the fuel [pad] gives it. *)
Fixpoint pad_loop (fuel : nat) (parts : list pystr) : list pystr :=
  match fuel with
  | O => parts
  | S fuel' =>
      if length parts <? 17
      then pad_loop fuel' (parts ++ [PLACEHOLDER])
      else parts
  end.

Definition pad (parts : list pystr) : list pystr := pad_loop 17 parts.

(** A dictionary display: the items are inserted from left to right. *)
Definition dict_of_items (items : list (pystr * pystr)) : gmap pystr pystr :=
  foldl (λ d kv, <[kv.1 := kv.2]> d) ∅ items.

(** The items [key: parts[i]], [key: parts[i+1]], ...; [None] when an index
    is out of range (IndexError). *)
Fixpoint items_from (keys : list pystr) (i : nat) (parts : list pystr)
  : option (list (pystr * pystr)) :=
  match keys with
  | [] => Some []
  | k :: keys' =>
      v ← parts !! i;
      rest ← items_from keys' (S i) parts;
      Some ((k, v) :: rest)
  end.

(** Lines 88-101, from the reply text on. *)
Definition parse_reply (text : pystr) : option (gmap pystr pystr) :=
  let raw := strip text in
  let parts := map strip (split SEP raw) in
  let parts := pad parts in
  dict_of_items <$> items_from FIELD_KEYS 0 parts.

Section GenerationCalls.

(** The service behind [generate_content]: its answer may depend on the
    requests it has already seen. *)
Variable backend : list Request -> Request -> GenResult.

Definition generate_content (model : GenerativeModel) (prompt : pystr)
    (safety_settings : option (list (pystr * pystr))) : M GenResult :=
  λ w,
    let r := {| req_model := model; req_prompt := prompt;
                req_safety := safety_settings |} in
    (backend (requests w) r,
     {| requests := requests w ++ [r]; slept := slept w |}).

Definition analyze_call (model : GenerativeModel) (text : pystr)
  : M (option (gmap pystr pystr)) :=
  let prompt := ANALYZE_PROMPT ++ take MAX_TRANSCRIPT_CHARS text in
  let* response := generate_content model prompt (Some safe) in
  ret (match response with
       | Response (Some t) => parse_reply t
       | Response None => None
       | ApiError => None
       end).

(** *** Summary Generator ([generate_csm_summary]) *)

(** pandas' CSV writer and [json.loads] ([None]: JSONDecodeError). *)
Variable to_csv : DataFrame pystr -> pystr.
Variable json_loads : pystr -> option value.

Definition summary_prompt (csm_name csv_data : pystr) : pystr :=
  join NL
    [ EMPTY;
      py "    You are a Sales Trainer. Summarize performance for CSM: "
        ++ csm_name ++ py ".";
      py "    Data: " ++ csv_data;
      py "    ";
      py "    **Style:** " ++ DQ ++ py "Strengths" ++ DQ ++ py " and "
        ++ DQ ++ py "Areas of Improvement" ++ DQ ++ py " must use format:";
      py "    **Category Name:** Description (citing Customer Names).";
      py "    ";
      py "    **Return JSON:** { " ++ DQ ++ py "CSM Name" ++ DQ ++ py ": "
        ++ DQ ++ csm_name ++ DQ ++ py ", " ++ DQ ++ py "Strengths" ++ DQ
        ++ py ": " ++ DQ ++ py "..." ++ DQ ++ py ", " ++ DQ
        ++ py "Areas of Improvement" ++ DQ ++ py ": " ++ DQ ++ py "..."
        ++ DQ ++ py " }";
      py "    " ].

(** The outer [option] is [None] when an exception leaves the function:
    only the frame accesses before the [try] can raise (KeyError). *)
Definition generate_csm_summary (model : GenerativeModel)
    (df : DataFrame pystr) (csm_name : pystr) : M (option value) :=
  match
    names ← column df (py "CSM Name");
    select_columns SUMMARY_COLS
      (filter_rows df (map (λ v, bool_decide (v = Some csm_name)) names))
  with
  | None => ret None
  | Some csm_cols =>
      let csv_data := to_csv csm_cols in
      let prompt := summary_prompt csm_name csv_data in
      let* response := generate_content model prompt None in
      ret (Some
        (match response with
         | Response (Some t) =>
             let clean :=
               strip (replace (py "```") EMPTY
                        (replace (py "```json") EMPTY t)) in
             match json_loads clean with
             | Some v => v
             | None => summary_sentinel csm_name
             end
         | Response None => summary_sentinel csm_name
         | ApiError => summary_sentinel csm_name
         end))
  end.

End GenerationCalls.

(** ** Report Builder ([to_excel]) *)

Record PatternFill := {
  start_color : pystr;
  end_color : pystr;
  fill_type : pystr
}.

Record Font := {
  color : pystr;
  bold : bool
}.

(** What a cell of the saved sheet holds: nothing, a text (openpyxl's data
    type 's'), a formula ('f'), an error code ('e'), a boolean ('b') or a
    number ('n'). *)
Inductive Cell :=
| EmptyCell
| TextCell (s : pystr)
| FormulaCell (s : pystr)
| ErrorCell (s : pystr)
| BoolCell (b : bool)
| NumberCell (literal : pystr).

(** An openpyxl worksheet as pandas fills it with [index=False]: the header
    row, the data rows, and the styling this program sets, keyed by column
    letter ([column_dimensions]) and by cell coordinate. *)
Record Worksheet := {
  header : list Cell;
  body : list (list Cell);
  widths : gmap pystr N;
  fills : gmap pystr PatternFill;
  fonts : gmap pystr Font
}.

(** [writer.sheets]: sheet titles with their worksheets, in creation order. *)
Definition Workbook := list (pystr * Worksheet).

(** openpyxl's [get_column_letter]: 1 is A, 26 is Z, 27 is AA.  The loop
    [while col_idx > 0] makes [col_idx] smaller at each turn, so [col_idx]
    turns are enough fuel. *)
Fixpoint letters_loop (fuel : nat) (col_idx : N) (letters : pystr) : pystr :=
  match fuel with
  | O => letters
  | S fuel' =>
      if (0 <? col_idx)%N then
        let (q, r) := N.div_eucl col_idx 26 in
        let (q, r) := if (r =? 0)%N then ((q - 1)%N, 26%N) else (q, r) in
        letters_loop fuel' q (letters ++ [(r + 64)%N])
      else letters
  end.

Definition get_column_letter (col_idx : N) : pystr :=
  reverse (letters_loop (N.to_nat col_idx) col_idx []).

(** openpyxl's [ILLEGAL_CHARACTERS_RE], [[\000-\010]|[\013-\014]|[\016-\037]]
    in octal: the control characters other than tab, line feed and carriage
    return. *)
Definition ILLEGAL_CHARACTERS (c : char) : bool :=
  ((c <=? 8) || (11 <=? c) && (c <=? 12) || (14 <=? c) && (c <=? 31))%N.

(** openpyxl's [ERROR_CODES]. *)
Definition ERROR_CODES : list pystr :=
  [ py "#NULL!"; py "#DIV/0!"; py "#VALUE!"; py "#REF!"; py "#NAME?";
    py "#NUM!"; py "#N/A" ].

(** The characters a cell keeps of a text ([value[:32767]]). *)
Definition MAX_CELL_CHARS : nat := N.to_nat 32767.

(** The largest frame pandas writes to a sheet: 2^20 rows, 2^14 columns. *)
Definition MAX_ROWS : N := 1048576.
Definition MAX_COLS : N := 16384.

Section ReportBuilder.

(** Three things the libraries decide and this file leaves open: which
    characters the XML writer under openpyxl accepts when the workbook is
    saved (lxml and [xml.etree] differ, neither takes a lone surrogate),
    Python's [str()] of a list or a dict, and what is stored for a number (a
    numeric cell, or pandas' text for the special floats). *)
Variable xml_char : char -> bool.
Variable py_str : value -> pystr.
Variable number_cell : pystr -> Cell.

(** [cell.value = s] for a string, then the writer.  openpyxl's
    [check_string] cuts the text to 32767 characters and raises
    IllegalCharacterError on what is left; [_bind_value] makes a text of two
    characters or more that starts with '=' a formula and an error code an
    error; the writer leaves the cell of an empty text empty, and raises on
    a character the XML layer refuses.  [None]: an exception. *)
Definition string_cell (s : pystr) : option Cell :=
  let value := take MAX_CELL_CHARS s in
  if existsb ILLEGAL_CHARACTERS value then None
  else if negb (forallb xml_char value) then None
  else Some
    (if (1 <? length value) && startswith (py "=") value then FormulaCell value
     else if bool_decide (value ∈ ERROR_CODES) then ErrorCell value
     else if bool_decide (value = []) then EmptyCell
     else TextCell value).

(** The same for a cell of any kind: pandas writes a missing value as the
    empty text ([na_rep]) and what is neither number nor boolean through
    [str()]. *)
Definition object_cell (v : value) : option Cell :=
  match v with
  | JNull => Some EmptyCell
  | JBool b => Some (BoolCell b)
  | JNumber literal => Some (number_cell literal)
  | JString s => string_cell s
  | JArray _ => string_cell (py_str v)
  | JObject _ => string_cell (py_str v)
  end.

(** [df.to_excel(writer, sheet_name=..., index=False)] for a fresh sheet:
    pandas raises ValueError on a frame larger than a sheet, then writes the
    column labels and the cells.  [None]: an exception. *)
Definition sheet_of_frame {C} (cell : C -> option Cell) (df : DataFrame C)
  : option Worksheet :=
  if ((MAX_ROWS <? N.of_nat (length (rows df)))
      || (MAX_COLS <? N.of_nat (length (columns df))))%N
  then None
  else
    header ← mapM string_cell (columns df);
    body ← mapM (mapM cell) (rows df);
    Some {| header := header; body := body;
            widths := ∅; fills := ∅; fonts := ∅ |}.

(** [ws.columns]: the letters of the populated columns, left to right. *)
Definition column_letters (ws : Worksheet) : list pystr :=
  map (λ i, get_column_letter (N.of_nat i)) (seq 1 (length (header ws))).

Definition header_fill : PatternFill :=
  {| start_color := py "1F497D"; end_color := py "1F497D";
     fill_type := py "solid" |}.

Definition header_font : Font := {| color := py "FFFFFF"; bold := true |}.

Definition column_width (sheet col_letter : pystr) : N :=
  if bool_decide (sheet = py "CSM Summary")
     && bool_decide (col_letter ∈ [py "B"; py "C"])
  then 80%N else 40%N.

(** The body of [for col in ws.columns]. *)
Definition style_column (sheet : pystr) (ws : Worksheet) (col_letter : pystr)
  : Worksheet :=
  let width := column_width sheet col_letter in
  {| header := header ws;
     body := body ws;
     widths := <[col_letter := width]> (widths ws);
     fills := <[col_letter ++ py "1" := header_fill]> (fills ws);
     fonts := <[col_letter ++ py "1" := header_font]> (fonts ws) |}.

Definition style_sheet (sheet : pystr) (ws : Worksheet) : Worksheet :=
  foldl (style_column sheet) ws (column_letters ws).

(** The workbook behind the bytes [to_excel] returns; [None] when an
    exception leaves the function, which has no [try]. *)
Definition to_excel (df_analysis : DataFrame pystr)
    (df_summary : option (DataFrame value)) : option Workbook :=
  ws ← sheet_of_frame string_cell df_analysis;
  let sheets := [(py "Call Analysis", ws)] in
  sheets ←
    match df_summary with
    | Some df =>
        ws' ← sheet_of_frame object_cell df;
        Some (sheets ++ [(py "CSM Summary", ws')])
    | None => Some sheets
    end;
  Some (map (λ '(sheet, ws), (sheet, style_sheet sheet ws)) sheets).

End ReportBuilder.

(** ** Orchestrator: one uploaded transcript *)

Record UploadedFile := {
  file_name : pystr;
  getvalue : list byte
}.

(** Truthiness of [data], which is [None] or a dictionary. *)
Definition truthy_dict (data : option (gmap pystr pystr)) : bool :=
  match data with
  | Some d => negb (bool_decide (d = ∅))
  | None => false
  end.

Section Orchestrator.

Variable Page : Type.
Variable PdfReader : list byte -> option (list Page).
Variable extract_text : Page -> option pystr.
Variable backend : list Request -> Request -> GenResult.

(** [for attempt in range(3)]: [attempts] is what is left of the range. *)
Fixpoint retry_loop (model : GenerativeModel) (text name : pystr)
    (attempts : list nat) (results : list (gmap pystr pystr))
  : M (list (gmap pystr pystr)) :=
  match attempts with
  | [] => ret results
  | _ :: attempts' =>
      let* data := analyze_call backend model text in
      match data with
      | Some d =>
          if truthy_dict data
          then ret (results ++ [<[py "File Name" := name]> d])
          else let* _ := sleep 2000 in
               retry_loop model text name attempts' results
      | None =>
          let* _ := sleep 2000 in
          retry_loop model text name attempts' results
      end
  end.

(** The body of [for idx, uploaded_file in enumerate(uploaded_files)]. *)
Definition process_file (model : GenerativeModel) (uploaded_file : UploadedFile)
    (results : list (gmap pystr pystr)) : M (list (gmap pystr pystr)) :=
  let text :=
    extract_text_from_pdf Page PdfReader extract_text (getvalue uploaded_file) in
  let* results :=
    if truthy (strip text)
    then retry_loop model text (file_name uploaded_file) (seq 0 3) results
    else ret results in
  let* _ := sleep 1000 in
  ret results.

Fixpoint process_files (model : GenerativeModel) (uploaded_files : list UploadedFile)
    (results : list (gmap pystr pystr)) : M (list (gmap pystr pystr)) :=
  match uploaded_files with
  | [] => ret results
  | uploaded_file :: rest =>
      let* results := process_file model uploaded_file results in
      process_files model rest results
  end.

End Orchestrator.

(** ** Orchestrator: the whole run (lines 160-208) *)

(** The columns of the frame of call records: the keys of the literal of
    [analyze_call], then the key the orchestrator adds. *)
Definition RESULT_COLUMNS : list pystr := FIELD_KEYS ++ [py "File Name"].

(** [pd.DataFrame(results)] for records that have the keys of a call record,
    the only ones the program builds.  A record that lacks one would give a
    frame with a missing cell, which [DataFrame pystr] does not represent:
    this is the [None] here. *)
Definition frame_of_results (results : list (gmap pystr pystr))
  : option (DataFrame pystr) :=
  rs ← mapM (λ d : gmap pystr pystr, mapM (λ k, d !! k) RESULT_COLUMNS) results;
  Some {| columns := RESULT_COLUMNS; rows := rs |}.

(** [Series.unique()]: the distinct values, in order of first appearance. *)
Fixpoint unique_from (seen l : list pystr) : list pystr :=
  match l with
  | [] => []
  | x :: l' =>
      if bool_decide (x ∈ seen) then unique_from seen l'
      else x :: unique_from (x :: seen) l'
  end.

Definition unique (l : list pystr) : list pystr := unique_from [] l.

(** [df['CSM Name'].unique()]; [None] for KeyError or a missing cell. *)
Definition unique_csms (df : DataFrame pystr) : option (list pystr) :=
  names ← column df (py "CSM Name");
  cells ← mapM id names;
  Some (unique cells).

(** How the handler of the run button ends, up to line 202.  [Completed]
    carries the frame of call records and the list [summaries]; making a frame
    of that list (line 203) is pandas' work on values of any shape and is not
    modelled.  [Raised] stands for an exception leaving the modelled steps:
    a KeyError of the frame accesses, or a frame with a missing cell. *)
Inductive RunOutcome :=
| NoModel
| NoResults
| Raised
| Completed (analysis_results : DataFrame pystr) (summaries : list value).

Section Run.

Variable unicode_lower : pystr -> pystr.
Variable list_models : pystr -> option (list ModelInfo).
Variable Page : Type.
Variable PdfReader : list byte -> option (list Page).
Variable extract_text : Page -> option pystr.
Variable backend : list Request -> Request -> GenResult.
Variable to_csv : DataFrame pystr -> pystr.
Variable json_loads : pystr -> option value.

(** [for i, csm in enumerate(unique_csms)]; [None] when a call raises. *)
Fixpoint summaries_loop (model : GenerativeModel) (df : DataFrame pystr)
    (csms : list pystr) (summaries : list value) : M (option (list value)) :=
  match csms with
  | [] => ret (Some summaries)
  | csm :: csms' =>
      let* summary_data :=
        generate_csm_summary backend to_csv json_loads model df csm in
      match summary_data with
      | Some v =>
          let* _ := sleep 1500 in
          summaries_loop model df csms' (summaries ++ [v])
      | None => ret None
      end
  end.

(** The part of the handler after the calls are analyzed: [if results:]. *)
Definition summarize (model : GenerativeModel) (results : list (gmap pystr pystr))
  : M RunOutcome :=
  match results with
  | [] => ret NoResults
  | _ :: _ =>
      match frame_of_results results with
      | None => ret Raised
      | Some df =>
          match unique_csms df with
          | None => ret Raised
          | Some csms =>
              let* summaries := summaries_loop model df csms [] in
              ret (match summaries with
                   | Some l => Completed df l
                   | None => Raised
                   end)
          end
      end
  end.

(** [if run_button:] *)
Definition run_handler (api_key : pystr) (uploaded_files : list UploadedFile)
  : M RunOutcome :=
  match get_gemini_model unicode_lower list_models api_key with
  | None => ret NoModel
  | Some model =>
      let* results :=
        process_files Page PdfReader extract_text backend model uploaded_files [] in
      summarize model results
  end.

End Run.

(** The pauses taken so far, in milliseconds. *)
Definition total_pause (w : World) : N := foldr N.add 0%N (slept w).

(** ** Notions used in the statements *)

(** A string that neither begins nor ends with a whitespace character. *)
Definition trimmed (s : pystr) : Prop :=
  (∀ c, head s = Some c → isspace c = false) ∧
  (∀ c, last s = Some c → isspace c = false).

(** The dictionary literal of [analyze_call] over a list of parts. *)
Definition record_of (parts : list pystr) : gmap pystr pystr :=
  dict_of_items (zip FIELD_KEYS parts).

(** The request [analyze_call] sends for a transcript. *)
Definition analyze_request (model : GenerativeModel) (text : pystr) : Request :=
  {| req_model := model;
     req_prompt := ANALYZE_PROMPT ++ take MAX_TRANSCRIPT_CHARS text;
     req_safety := Some safe |}.

(** [response.text] inside a [try]: the text, or [None] when the call or the
    accessor raises. *)
Definition reply_text (r : GenResult) : option pystr :=
  match r with
  | Response (Some t) => Some t
  | Response None => None
  | ApiError => None
  end.

(** The world after a request has been sent. *)
Definition log_request (r : Request) (w : World) : World :=
  {| requests := requests w ++ [r]; slept := slept w |}.

(** The choice of [select_model], as a cascade. *)
Definition preferred (unicode_lower : pystr → pystr) (all_models : list pystr)
  : option pystr :=
  match List.find (is_flash unicode_lower) all_models with
  | Some m => Some m
  | None =>
      match List.find (is_pro unicode_lower) all_models with
      | Some m => Some m
      | None =>
          match all_models with
          | m :: _ => if truthy m then Some m else None
          | [] => None
          end
      end
  end.

(** The request [generate_csm_summary] sends. *)
Definition summary_request (model : GenerativeModel) (csm_name csv_data : pystr)
  : Request :=
  {| req_model := model;
     req_prompt := summary_prompt csm_name csv_data;
     req_safety := None |}.

(** The rows of one salesperson, reduced to the columns of the prompt
    (lines 106-108, up to the CSV text). *)
Definition csm_rows (df : DataFrame pystr) (csm_name : pystr)
  : option (DataFrame pystr) :=
  names ← column df (py "CSM Name");
  select_columns SUMMARY_COLS
    (filter_rows df (map (λ v, bool_decide (v = Some csm_name)) names)).

(** Line 121: both fence markers are replaced by the empty string, then the
    text is stripped. *)
Definition clean_reply (t : pystr) : pystr :=
  strip (replace (py "```") EMPTY (replace (py "```json") EMPTY t)).

(** Column [col_letter] carries the width the program gives it and the
    header style on its first cell. *)
Definition column_styled (sheet : pystr) (ws : Worksheet) (col_letter : pystr)
  : Prop :=
  widths ws !! col_letter = Some (column_width sheet col_letter)
  ∧ fills ws !! (col_letter ++ py "1") = Some header_fill
  ∧ fonts ws !! (col_letter ++ py "1") = Some header_font.

(** A sheet whose columns all have the header style, the [i]-th column
    (counted from 1) having width [width_of i]. *)
Definition styled (width_of : nat → N) (ws : Worksheet) : Prop :=
  ∀ i, 1 ≤ i ≤ length (header ws) →
    widths ws !! get_column_letter (N.of_nat i) = Some (width_of i)
    ∧ fills ws !! (get_column_letter (N.of_nat i) ++ py "1") = Some header_fill
    ∧ fonts ws !! (get_column_letter (N.of_nat i) ++ py "1") = Some header_font.

(** A text the workbook takes: among the characters a cell keeps, none that
    openpyxl or the XML writer refuses. *)
Definition accepted (xml_char : char → bool) (s : pystr) : Prop :=
  Forall (λ c, ILLEGAL_CHARACTERS c = false ∧ xml_char c = true)
    (take MAX_CELL_CHARS s).

(** A text without any character that openpyxl or the XML writer refuses. *)
Definition clean_text (xml_char : char → bool) (s : pystr) : bool :=
  forallb (λ c, negb (ILLEGAL_CHARACTERS c) && xml_char c) s.

(** The text written for a cell of the summary frame, if it is written as
    text. *)
Definition cell_text (py_str : value → pystr) (v : value) : option pystr :=
  match v with
  | JString s => Some s
  | JArray _ => Some (py_str v)
  | JObject _ => Some (py_str v)
  | _ => None
  end.

(** A frame no larger than a sheet. *)
Definition fits {C} (df : DataFrame C) : Prop :=
  (N.of_nat (length (rows df)) ≤ MAX_ROWS)%N
  ∧ (N.of_nat (length (columns df)) ≤ MAX_COLS)%N.

(** A frame the workbook takes: it fits a sheet, and its column labels and
    the texts of its cells are accepted. *)
Definition writable {C} (xml_char : char → bool) (text_of : C → option pystr)
    (df : DataFrame C) : Prop :=
  fits df
  ∧ Forall (accepted xml_char) (columns df)
  ∧ Forall (Forall (λ c, ∀ s, text_of c = Some s → accepted xml_char s)) (rows df).


(** [result] is what [generate_csm_summary] makes of the answer [reply] of
    the service: the parsed text, or the sentinel of the salesperson. *)
Definition summary_for (json_loads : pystr → option value) (csm_name : pystr)
    (reply : GenResult) (result : value) : Prop :=
  (∀ t v, reply = Response (Some t) → json_loads (clean_reply t) = Some v →
     result = v)
  ∧ (∀ t, reply = Response (Some t) → json_loads (clean_reply t) = None →
     result = summary_sentinel csm_name)
  ∧ (reply = ApiError ∨ reply = Response None →
     result = summary_sentinel csm_name).

(** A call record of the file [name]: the 17 fields and the file name. *)
Definition call_record (name : pystr) (d : gmap pystr pystr) : Prop :=
  dom d = list_to_set RESULT_COLUMNS ∧ d !! py "File Name" = Some name.

(** ** Sample inputs

    Concrete models, replies and stand-ins for the libraries, on which the
    theorems are exercised. *)

Definition sample_model : GenerativeModel :=
  {| model_name := py "models/gemini-1.5-flash-001" |}.

Definition fresh_world : World := {| requests := []; slept := [] |}.

(** A service that answers every request with the same text. *)
Definition replying (raw : pystr) : list Request → Request → GenResult :=
  λ _ _, Response (Some raw).

(** A service that is down. *)
Definition failing : list Request → Request → GenResult := λ _ _, ApiError.

Definition ten_segments : pystr :=
  py "Asha###Ravi###Mixed###Yes###trusts the brand###No###-###Yes###12% a year###No".

(** A service that fails twice and then answers. *)
Definition flaky : list Request → Request → GenResult :=
  λ seen _, if length seen <? 2 then ApiError else Response (Some ten_segments).

Definition nineteen_segments : pystr :=
  py "a###b###c###d###e###f###g###h###i###j###k###l###m###n###o###p### q ###r###s".

Definition untidy_reply : pystr := py "   Asha  ###  Ravi ### Mixed   ".

(** A stand-in for PyPDF2: bytes that start like a PDF are read as a
    two-page document, anything else is rejected. *)
Definition two_page_pdf : list byte := [x25; x50; x44; x46]%byte.

Definition sample_reader (b : list byte) : option (list pystr) :=
  match b with
  | (x25 :: x50 :: x44 :: x46 :: _)%byte => Some [py "Hello Ravi"; py "Goodbye"]
  | _ => None
  end.

Definition sample_file : UploadedFile :=
  {| file_name := py "call1.pdf"; getvalue := two_page_pdf |}.

(** A fenced JSON reply, and stand-ins for [json.loads] and [to_csv]. *)
Definition sample_json_text : pystr :=
  py "{" ++ DQ ++ py "CSM Name" ++ DQ ++ py ": " ++ DQ ++ py "Asha" ++ DQ
  ++ py ", " ++ DQ ++ py "Strengths" ++ DQ ++ py ": " ++ DQ
  ++ py "**Trust:** cited the brand to Ravi" ++ DQ
  ++ py ", " ++ DQ ++ py "Areas of Improvement" ++ DQ ++ py ": " ++ DQ
  ++ py "**Urgency:** no offer made to Ravi" ++ DQ ++ py "}".

Definition sample_json_value : value :=
  JObject [ (py "CSM Name", JString (py "Asha"));
            (py "Strengths", JString (py "**Trust:** cited the brand to Ravi"));
            (py "Areas of Improvement",
             JString (py "**Urgency:** no offer made to Ravi")) ].

Definition fenced_reply : pystr :=
  py "```json" ++ NL ++ sample_json_text ++ NL ++ py "```" ++ NL.

Definition sample_loads (s : pystr) : option value :=
  if bool_decide (s = sample_json_text) then Some sample_json_value else None.

Definition sample_to_csv (df : DataFrame pystr) : pystr :=
  join NL (map (join (py ",")) (columns df :: rows df)).

Definition sample_frame : DataFrame pystr :=
  {| columns := FIELD_KEYS ++ [py "File Name"];
     rows := [pad (map strip (split SEP ten_segments)) ++ [py "call1.pdf"]] |}.

Definition seventeen_segments : pystr :=
  py "a###b###c###d###e###f###g###h###i###j###k###l###m###n###o###p###q".

Definition three_fields : list pystr :=
  [py "  Asha "; py "Ravi"; py " Pure Investor  "].

(** A transcript of exactly 30000 characters. *)
Definition long_transcript : pystr := replicate MAX_TRANSCRIPT_CHARS 97%N.

Definition sample_models : list ModelInfo :=
  [ {| name := py "models/embedding-flash-1.5";
       supported_generation_methods := [py "embedContent"] |};
    {| name := py "models/gemini-1.0-pro";
       supported_generation_methods := [py "generateContent"; py "countTokens"] |};
    {| name := py "models/gemini-1.5-flash-001";
       supported_generation_methods := [py "generateContent"] |} ].

(** What [sample_frame] holds for the prompt about Asha. *)
Definition asha_rows : DataFrame pystr :=
  {| columns := SUMMARY_COLS;
     rows := [[py "Ravi"; py "Mixed"; py "trusts the brand"; py "-"; py "-"]] |}.

(** The record of [ten_segments] for the file call1.pdf. *)
Definition sample_record : gmap pystr pystr :=
  <[py "File Name" := py "call1.pdf"]>
    (record_of (pad (map strip (split SEP (strip ten_segments))))).

(** A reply with a vertical tab (U+000B) inside the customer's name, and the
    frame of the record it gives for the file call1.pdf. *)
Definition reply_with_control_character : pystr :=
  py "Asha###Ra" ++ [11%N] ++ py "vi###Mixed".

Definition control_character_frame : DataFrame pystr :=
  {| columns := RESULT_COLUMNS;
     rows := [ [ py "Asha"; py "Ra" ++ [11%N] ++ py "vi"; py "Mixed" ]
               ++ replicate 14 PLACEHOLDER ++ [py "call1.pdf"] ] |}.

(** A frame of call records with one row more than a sheet has. *)
Definition oversized_frame : DataFrame pystr :=
  {| columns := RESULT_COLUMNS;
     rows := replicate (N.to_nat 1048577) (replicate 18 PLACEHOLDER) |}.

(** A summary frame of one row. *)
Definition sample_summary_frame : DataFrame value :=
  {| columns := [py "CSM Name"; py "Strengths"; py "Areas of Improvement"];
     rows := [ [ JString (py "Asha");
                 JString (py "**Trust:** cited the brand to Ravi");
                 JString (py "**Urgency:** no offer made to Ravi") ] ] |}.

(** Stand-ins for the XML writer (it refuses the surrogates), for [str()] and
    for the cell of a number. *)
Definition sample_xml_char (c : char) : bool :=
  negb ((55296 <=? c) && (c <=? 57343))%N.

Definition sample_py_str (v : value) : pystr := py "[...]".

Definition sample_number_cell (literal : pystr) : Cell := NumberCell literal.

(** * Properties *)

(** ** The string primitives on small inputs *)

Example split_overlap :
  split (py "###") (py "a####b###") = [py "a"; py "#b"; EMPTY].
Proof. reflexivity. Qed.

Example split_empty : split (py "###") EMPTY = [EMPTY].
Proof. reflexivity. Qed.

Example strip_example :
  strip ([9; 160; 8195] ++ py "  a b " ++ [10; 12288])%N = py "a b".
Proof. reflexivity. Qed.

Example isspace_table :
  forallb isspace
    [9; 10; 11; 12; 13; 28; 29; 30; 31; 32; 133; 160; 5760; 8192; 8197; 8202;
     8232; 8233; 8239; 8287; 12288]%N = true
  ∧ existsb isspace
      [8; 14; 27; 33; 45; 132; 134; 159; 161; 5759; 8191; 8203; 8234; 8288;
       12289; 65279]%N = false.
Proof. split; reflexivity. Qed.

Example replace_example :
  replace (py "```") EMPTY (py "```{}``` ") = py "{} ".
Proof. reflexivity. Qed.

Example lower_example unicode_lower :
  lower unicode_lower (py "Models/Gemini-1.5-FLASH") = py "models/gemini-1.5-flash".
Proof. reflexivity. Qed.

(** ** Stripping *)

Lemma lstrip_head (s : pystr) c : head (lstrip s) = Some c → isspace c = false.
Proof.
  induction s as [|a s IH]; simpl; [done|].
  destruct (isspace a) eqn:Ha; [done|].
  by intros [= <-].
Qed.

Lemma lstrip_split (s : pystr) :
  ∃ sp, s = sp ++ lstrip s ∧ forallb isspace sp = true.
Proof.
  induction s as [|a s (sp & Hs & Hsp)]; simpl.
  - by exists [].
  - destruct (isspace a) eqn:Ha.
    + exists (a :: sp). simpl. rewrite Ha, Hsp. split; [by f_equal|done].
    + by exists [].
Qed.

Lemma lstrip_spaces (sp s : pystr) :
  forallb isspace sp = true → lstrip (sp ++ s) = lstrip s.
Proof.
  induction sp as [|a sp IH]; simpl; [done|].
  intros [Ha Hsp]%andb_prop. rewrite Ha. by apply IH.
Qed.

Lemma lstrip_app_nonempty (s e : pystr) :
  lstrip s ≠ [] → lstrip (s ++ e) = lstrip s ++ e.
Proof.
  induction s as [|a s IH]; simpl; [done|].
  destruct (isspace a); [done|]. by intros _.
Qed.

Lemma lstrip_all_space (s : pystr) :
  lstrip s = [] → forallb isspace s = true.
Proof.
  induction s as [|a s IH]; simpl; [done|].
  destruct (isspace a); [done|]. by intros.
Qed.

Lemma rstrip_split (s : pystr) :
  ∃ sp, s = rstrip s ++ sp ∧ forallb isspace sp = true.
Proof.
  destruct (lstrip_split (reverse s)) as (sp & Hs & Hsp).
  exists (reverse sp). split.
  - unfold rstrip. rewrite <- reverse_app, <- Hs. by rewrite reverse_involutive.
  - rewrite forallb_forall in Hsp. apply forallb_forall.
    intros x Hx. apply Hsp. apply list_elem_of_In. apply list_elem_of_In in Hx.
    by rewrite elem_of_reverse in Hx.
Qed.

Lemma rstrip_last (s : pystr) c : last (rstrip s) = Some c → isspace c = false.
Proof. unfold rstrip. rewrite last_reverse. apply lstrip_head. Qed.

Lemma strip_trimmed (s : pystr) : trimmed (strip s).
Proof.
  split; intros c Hc.
  - apply (lstrip_head s).
    destruct (rstrip_split (lstrip s)) as (sp & Hs & _).
    rewrite Hs. fold (strip s). by rewrite head_app, Hc.
  - by apply (rstrip_last (lstrip s)).
Qed.

Lemma placeholder_trimmed : trimmed PLACEHOLDER.
Proof. split; intros c [= <-]; reflexivity. Qed.

(** Appending to a reply that is not blank only extends its stripped form. *)
Lemma strip_app (s e : pystr) :
  strip s ≠ [] → ∃ rest, strip (s ++ e) = strip s ++ rest.
Proof.
  intros Hne. unfold strip in *.
  assert (lstrip s ≠ []) as Hl.
  { intros Hl. by rewrite Hl in Hne. }
  rewrite lstrip_app_nonempty by done.
  destruct (rstrip_split (lstrip s)) as (sp & Hs & Hsp).
  destruct (lstrip (reverse e)) as [|c t] eqn:He.
  - exists []. rewrite app_nil_r. unfold rstrip at 1.
    rewrite reverse_app, lstrip_spaces by by apply lstrip_all_space.
    done.
  - exists (sp ++ rstrip e). unfold rstrip at 1.
    rewrite reverse_app, lstrip_app_nonempty by by rewrite He.
    rewrite reverse_app, reverse_involutive. fold (rstrip e).
    by rewrite Hs at 1; rewrite <- app_assoc.
Qed.

(** ** Splitting *)

Lemma startswith_length (p s : pystr) :
  startswith p s = true → length p ≤ length s.
Proof.
  revert s. induction p as [|a p IH]; intros [|b s]; simpl; try done; try lia.
  intros [_ H]%andb_prop. apply IH in H. lia.
Qed.

Lemma startswith_app (p s e : pystr) :
  startswith p s = true → startswith p (s ++ e) = true.
Proof.
  revert s. induction p as [|a p IH]; intros [|b s]; simpl; try done.
  intros [Hab H]%andb_prop. by rewrite Hab, IH.
Qed.

Lemma startswith_app_long (p s e : pystr) :
  length p ≤ length s → startswith p (s ++ e) = startswith p s.
Proof.
  revert s. induction p as [|a p IH]; intros [|b s]; simpl; try done; try lia.
  intros Hlen. rewrite IH by lia. done.
Qed.

(** A string shorter than the separator holds no separator. *)
Lemma split_scan_short (sep : pystr) skip cur (s : pystr) :
  length s < length sep → length (split_scan sep skip cur s) = 1.
Proof.
  revert skip cur. induction s as [|c t IH]; intros skip cur Hlen; [done|].
  simpl in *. destruct skip as [|k].
  - destruct (startswith sep (c :: t)) eqn:Hsw.
    + apply startswith_length in Hsw. simpl in Hsw. lia.
    + apply IH. lia.
  - apply IH. lia.
Qed.

(** The scan goes from left to right: the segments found before the end of
    [s] are not affected by what follows [s]. *)
Lemma split_scan_stable (sep : pystr) (s e : pystr) skip cur n :
  n < length (split_scan sep skip cur s) →
  take n (split_scan sep skip cur (s ++ e)) = take n (split_scan sep skip cur s).
Proof.
  revert skip cur n. induction s as [|c t IH]; intros skip cur n Hn.
  - simpl in Hn. by replace n with 0 by lia.
  - rewrite <- app_comm_cons. destruct skip as [|k]; [|by apply IH].
    cbn [split_scan] in *.
    destruct (startswith sep (c :: t)) eqn:Hsw.
    + rewrite app_comm_cons, (startswith_app _ _ _ Hsw).
      destruct n as [|m]; [done|]. cbn [take]. f_equal.
      apply IH. rewrite length_cons in Hn. lia.
    + destruct (startswith sep (c :: t ++ e)) eqn:Hsw'; [|by apply IH].
      assert (length (c :: t) < length sep) as Hshort.
      { destruct (decide (length sep ≤ length (c :: t))) as [Hle|]; [|lia].
        rewrite app_comm_cons, startswith_app_long in Hsw' by done. congruence. }
      rewrite split_scan_short in Hn by (simpl in *; lia).
      by replace n with 0 by lia.
Qed.

Lemma split_stable (sep s e : pystr) n :
  n < length (split sep s) →
  take n (split sep (s ++ e)) = take n (split sep s).
Proof. apply split_scan_stable. Qed.

Lemma split_scan_nonempty (sep : pystr) skip cur (s : pystr) :
  0 < length (split_scan sep skip cur s).
Proof.
  revert skip cur. induction s as [|c t IH]; intros skip cur; simpl; [lia|].
  destruct skip; [|apply IH].
  destruct (startswith sep (c :: t)); simpl; [lia|apply IH].
Qed.

Lemma split_nonempty (sep s : pystr) : 0 < length (split sep s).
Proof. apply split_scan_nonempty. Qed.

Lemma startswith_drop (p s : pystr) :
  startswith p s = true → s = p ++ drop (length p) s.
Proof.
  revert s. induction p as [|a p IH]; intros [|b s]; simpl; try done.
  intros [Hab H]%andb_prop. apply N.eqb_eq in Hab as ->. f_equal. by apply IH.
Qed.

Lemma join_cons (sep p : pystr) (rest : list pystr) :
  0 < length rest → join sep (p :: rest) = p ++ sep ++ join sep rest.
Proof. destruct rest; simpl; [lia|done]. Qed.

Lemma join_split_scan (sep : pystr) skip cur (s : pystr) :
  sep ≠ [] → skip ≤ length s →
  join sep (split_scan sep skip cur s) = reverse cur ++ drop skip s.
Proof.
  intros Hsep. revert skip cur. induction s as [|c t IH]; intros skip cur Hskip.
  - simpl in *. replace skip with 0 by lia. simpl. by rewrite app_nil_r.
  - destruct skip as [|k].
    + cbn [split_scan]. destruct (startswith sep (c :: t)) eqn:Hsw.
      * rewrite join_cons by apply split_scan_nonempty.
        pose proof (startswith_length _ _ Hsw) as Hlen.
        pose proof (startswith_drop _ _ Hsw) as Hs.
        destruct sep as [|a sep]; [done|].
        simpl in Hlen. rewrite IH by (simpl; lia).
        simpl in Hs. simpl. rewrite Nat.sub_0_r.
        injection Hs as -> Hs. by rewrite Hs at 2.
      * rewrite IH by (simpl; lia). by rewrite reverse_cons, <- app_assoc.
    + cbn [split_scan]. by rewrite IH by (simpl in *; lia).
Qed.

(** Splitting loses nothing: joining the segments with the separator gives
    the string back, as [sep.join(s.split(sep)) == s] in Python. *)
Lemma join_split (sep s : pystr) : sep ≠ [] → join sep (split sep s) = s.
Proof. intros Hsep. unfold split. by rewrite join_split_scan by (done || lia). Qed.

(** ** Padding and the record literal *)

Lemma pad_loop_spec fuel (parts : list pystr) :
  pad_loop fuel parts
  = parts ++ replicate (fuel `min` (17 - length parts)) PLACEHOLDER.
Proof.
  revert parts. induction fuel as [|fuel IH]; intros parts; simpl.
  - by rewrite app_nil_r.
  - destruct (Nat.ltb_spec (length parts) 17) as [Hlt|Hge].
    + rewrite IH, length_app. simpl.
      replace (17 - length parts) with (S (17 - (length parts + 1))) by lia.
      simpl. by rewrite <- app_assoc.
    + replace (17 - length parts) with 0 by lia. by rewrite app_nil_r.
Qed.

(** The loop stops by itself within its fuel: on exit the condition
    [len(parts) < 17] is false. *)
Lemma pad_spec (parts : list pystr) :
  pad parts = parts ++ replicate (17 - length parts) PLACEHOLDER.
Proof. unfold pad. rewrite pad_loop_spec. f_equal. f_equal. lia. Qed.

Lemma pad_length (parts : list pystr) : 17 ≤ length (pad parts).
Proof. rewrite pad_spec, length_app, length_replicate. lia. Qed.

Lemma pad_lookup (parts : list pystr) i :
  i < 17 →
  pad parts !! i = Some (default PLACEHOLDER (parts !! i)).
Proof.
  intros Hi. rewrite pad_spec.
  destruct (decide (i < length parts)) as [Hlt|Hge].
  - rewrite lookup_app_l by done.
    destruct (lookup_lt_is_Some_2 parts i Hlt) as [x Hx]. by rewrite Hx.
  - rewrite lookup_app_r by lia.
    rewrite (lookup_ge_None_2 parts i) by lia. simpl.
    apply lookup_replicate_2. lia.
Qed.

Lemma items_from_zip (keys : list pystr) i (parts : list pystr) :
  i + length keys ≤ length parts →
  items_from keys i parts = Some (zip keys (drop i parts)).
Proof.
  revert i. induction keys as [|k keys IH]; intros i Hlen; simpl in *; [done|].
  destruct (lookup_lt_is_Some_2 parts i) as [v Hv]; [lia|].
  rewrite Hv. simpl. rewrite IH by lia. simpl.
  by rewrite (drop_S _ _ _ Hv).
Qed.

Lemma dict_of_items_fresh (items : list (pystr * pystr)) (d : gmap pystr pystr) k :
  k ∉ items.*1 →
  foldl (λ d kv, <[kv.1 := kv.2]> d) d items !! k = d !! k.
Proof.
  revert d. induction items as [|[k' v'] items IH]; intros d Hk; simpl in *; [done|].
  rewrite not_elem_of_cons in Hk. destruct Hk as [Hne Hk].
  rewrite IH by done. by rewrite lookup_insert_ne.
Qed.

Lemma dict_of_items_elem (items : list (pystr * pystr)) (d : gmap pystr pystr) k v :
  NoDup items.*1 → (k, v) ∈ items →
  foldl (λ d kv, <[kv.1 := kv.2]> d) d items !! k = Some v.
Proof.
  revert d. induction items as [|[k' v'] items IH]; intros d Hnd Hin; simpl in *.
  - by apply elem_of_nil in Hin.
  - apply NoDup_cons in Hnd as [Hk' Hnd].
    apply elem_of_cons in Hin as [[= -> ->]|Hin].
    + rewrite dict_of_items_fresh by done. apply lookup_insert_eq.
    + by apply IH.
Qed.

Lemma dict_of_items_dom (items : list (pystr * pystr)) (d : gmap pystr pystr) :
  dom (foldl (λ d kv, <[kv.1 := kv.2]> d) d items)
  = dom d ∪ list_to_set items.*1.
Proof.
  revert d. induction items as [|[k v] items IH]; intros d; simpl.
  - set_solver.
  - rewrite IH, dom_insert_L. set_solver.
Qed.

Lemma FIELD_KEYS_NoDup : NoDup FIELD_KEYS.
Proof. apply (bool_decide_unpack _). vm_compute. exact I. Qed.

Lemma FIELD_KEYS_length : length FIELD_KEYS = 17.
Proof. reflexivity. Qed.

Lemma record_of_lookup (parts : list pystr) i key :
  17 ≤ length parts → FIELD_KEYS !! i = Some key →
  record_of parts !! key = parts !! i.
Proof.
  intros Hlen Hkey.
  assert (i < 17) as Hi by (apply lookup_lt_Some in Hkey; by rewrite FIELD_KEYS_length in Hkey).
  destruct (lookup_lt_is_Some_2 parts i) as [v Hv]; [lia|].
  rewrite Hv. apply dict_of_items_elem.
  - rewrite fst_zip by (rewrite FIELD_KEYS_length; lia). apply FIELD_KEYS_NoDup.
  - apply (list_elem_of_lookup_2 _ i). rewrite lookup_zip_with, Hkey. simpl. by rewrite Hv.
Qed.

Lemma record_of_dom (parts : list pystr) :
  17 ≤ length parts → dom (record_of parts) = list_to_set FIELD_KEYS.
Proof.
  intros Hlen. unfold record_of, dict_of_items.
  rewrite dict_of_items_dom, dom_empty_L, fst_zip by (rewrite FIELD_KEYS_length; lia).
  by rewrite (left_id_L ∅ (∪)).
Qed.

Lemma record_of_size (parts : list pystr) :
  17 ≤ length parts → size (record_of parts) = 17.
Proof.
  intros Hlen. rewrite <- size_dom, record_of_dom by done.
  rewrite size_list_to_set by apply FIELD_KEYS_NoDup. apply FIELD_KEYS_length.
Qed.

Lemma record_of_value (parts : list pystr) key v :
  17 ≤ length parts → record_of parts !! key = Some v →
  ∃ i, FIELD_KEYS !! i = Some key ∧ parts !! i = Some v.
Proof.
  intros Hlen Hv.
  assert (key ∈ dom (record_of parts)) as Hdom by (apply elem_of_dom; eauto).
  rewrite record_of_dom in Hdom by done.
  apply elem_of_list_to_set, list_elem_of_lookup in Hdom as [i Hi].
  exists i. split; [done|]. by rewrite <- (record_of_lookup parts i key).
Qed.

(** Lines 88-101 never fail: after the padding all 17 indices are in range. *)
Lemma parse_reply_spec (text : pystr) :
  parse_reply text
  = Some (record_of (pad (map strip (split SEP (strip text))))).
Proof.
  unfold parse_reply. rewrite items_from_zip.
  - done.
  - pose proof (pad_length (map strip (split SEP (strip text)))).
    rewrite FIELD_KEYS_length. lia.
Qed.

(** ** The analyzer as a function of the reply *)

Lemma analyze_call_run backend model text w :
  analyze_call backend model text w
  = (reply_text (backend (requests w) (analyze_request model text)) ≫= parse_reply,
     log_request (analyze_request model text) w).
Proof.
  unfold analyze_call, bind, generate_content, ret. fold (analyze_request model text).
  by destruct (backend (requests w) (analyze_request model text)) as [|[t|]].
Qed.

(** ** Call Analyzer *)

(** C1. A reply with fewer than 17 segments yields a mapping with all 17
    keys: the key at position [i] holds the stripped [i]-th segment when the
    reply has one, and the placeholder "-" otherwise.  The empty reply is
    such a reply (one empty segment), and so is one with 10 segments, whose
    11th to 17th keys hold "-". *)
Theorem short_reply_is_padded backend model text w (raw : pystr) :
  backend (requests w) (analyze_request model text) = Response (Some raw) →
  length (split SEP (strip raw)) < 17 →
  ∃ d : gmap pystr pystr,
    (analyze_call backend model text w).1 = Some d
    ∧ dom d = list_to_set FIELD_KEYS
    ∧ size d = 17
    ∧ (∀ i key seg, FIELD_KEYS !! i = Some key →
         split SEP (strip raw) !! i = Some seg → d !! key = Some (strip seg))
    ∧ (∀ i key, FIELD_KEYS !! i = Some key →
         length (split SEP (strip raw)) ≤ i → d !! key = Some PLACEHOLDER)
    ∧ length (split SEP (strip EMPTY)) = 1
    ∧ (length (split SEP (strip raw)) = 10 →
       ∀ i key, 10 ≤ i → FIELD_KEYS !! i = Some key → d !! key = Some PLACEHOLDER).
Proof.
  intros Hreply Hshort.
  set (segs := split SEP (strip raw)) in *.
  pose proof (pad_length (map strip segs)) as Hlen.
  assert (∀ i key, FIELD_KEYS !! i = Some key →
    record_of (pad (map strip segs)) !! key
    = Some (default PLACEHOLDER (map strip segs !! i))) as Hlookup.
  { intros i key Hkey. rewrite (record_of_lookup _ i) by done.
    apply pad_lookup. apply lookup_lt_Some in Hkey.
    by rewrite FIELD_KEYS_length in Hkey. }
  exists (record_of (pad (map strip segs))).
  rewrite analyze_call_run, Hreply. simpl. rewrite parse_reply_spec. fold segs.
  split_and!; try done.
  - by apply record_of_dom.
  - by apply record_of_size.
  - intros i key seg Hkey Hseg. rewrite (Hlookup i) by done.
    by rewrite list_lookup_fmap, Hseg.
  - intros i key Hkey Hi. rewrite (Hlookup i) by done.
    by rewrite list_lookup_fmap, (lookup_ge_None_2 segs i).
  - intros Hten i key Hi Hkey. rewrite (Hlookup i) by done.
    by rewrite list_lookup_fmap, (lookup_ge_None_2 segs i) by lia.
Qed.

Lemma short_reply_is_padded_witness :
  ∃ d : gmap pystr pystr,
    (analyze_call (replying ten_segments) sample_model (py "call") fresh_world).1
    = Some d
    ∧ d !! py "Lead Intent" = Some (py "Mixed")
    ∧ d !! py "⚠️ Spiritual" = Some (py "No")
    ∧ d !! py "📝 Spiritual Detail" = Some (py "-")
    ∧ d !! py "Pitch Flow Adherence" = Some (py "-").
Proof.
  destruct (short_reply_is_padded (replying ten_segments) sample_model
              (py "call") fresh_world ten_segments)
    as (d & Hd & _ & _ & Hseg & Hpad & _); [reflexivity | vm_compute; lia |].
  exists d. split_and!; [exact Hd | | | |].
  - exact (Hseg 2 (py "Lead Intent") (py "Mixed") eq_refl eq_refl).
  - exact (Hseg 9 (py "⚠️ Spiritual") (py "No") eq_refl eq_refl).
  - apply (Hpad 10); [reflexivity | vm_compute; lia].
  - apply (Hpad 16); [reflexivity | vm_compute; lia].
Defined.

(** The empty reply: one empty segment, then sixteen placeholders. *)
Example empty_reply_record :
  (analyze_call (replying EMPTY) sample_model (py "call") fresh_world).1
  = Some (record_of (EMPTY :: replicate 16 PLACEHOLDER)).
Proof. rewrite analyze_call_run. reflexivity. Qed.

Lemma zip_take_keys (keys parts : list pystr) :
  zip keys (take (length keys) parts) = zip keys parts.
Proof.
  revert parts. induction keys as [|k keys IH]; intros [|p parts]; simpl; try done.
  by rewrite IH.
Qed.

Lemma record_of_take (parts : list pystr) :
  record_of (take 17 parts) = record_of parts.
Proof. unfold record_of. apply (f_equal dict_of_items), zip_take_keys. Qed.

Lemma pad_long (parts : list pystr) : 17 ≤ length parts → pad parts = parts.
Proof.
  intros Hlen. rewrite pad_spec. replace (17 - length parts) with 0 by lia.
  apply app_nil_r.
Qed.

(** C2. When the reply has more than 17 segments, the 17 keys hold the first
    17 segments (stripped), in order, and nothing changes when further text,
    delimiters or segments, is appended to the reply. *)
Theorem long_reply_uses_first_17 backend model text w (raw : pystr) :
  backend (requests w) (analyze_request model text) = Response (Some raw) →
  17 < length (split SEP (strip raw)) →
  ∃ d : gmap pystr pystr,
    (analyze_call backend model text w).1 = Some d
    ∧ dom d = list_to_set FIELD_KEYS
    ∧ (∀ i key, FIELD_KEYS !! i = Some key →
         d !! key = strip <$> split SEP (strip raw) !! i)
    ∧ (∀ backend' model' text' w' (extra : pystr),
         backend' (requests w') (analyze_request model' text')
         = Response (Some (raw ++ extra)) →
         (analyze_call backend' model' text' w').1 = Some d).
Proof.
  intros Hreply Hlong.
  set (segs := split SEP (strip raw)) in *.
  exists (record_of (map strip segs)).
  assert (17 ≤ length (map strip segs)) as Hlen by (rewrite length_map; lia).
  split_and!.
  - rewrite analyze_call_run, Hreply. simpl.
    by rewrite parse_reply_spec, pad_long.
  - by apply record_of_dom.
  - intros i key Hkey. rewrite (record_of_lookup _ i) by done.
    apply list_lookup_fmap.
  - intros backend' model' text' w' extra Hreply'.
    rewrite analyze_call_run, Hreply'. simpl. rewrite parse_reply_spec. f_equal.
    assert (strip raw ≠ []) as Hne.
    { intros Hnil. subst segs. rewrite Hnil in Hlong. vm_compute in Hlong. lia. }
    destruct (strip_app raw extra Hne) as [rest ->].
    pose proof (split_stable SEP (strip raw) rest 17 ltac:(fold segs; lia)) as Htake.
    fold segs in Htake.
    set (segs' := split SEP (strip raw ++ rest)) in *.
    assert (17 ≤ length segs') as Hlen'.
    { apply (f_equal length) in Htake. rewrite !length_take in Htake. lia. }
    rewrite pad_long by (rewrite length_map; lia).
    rewrite <- record_of_take, <- (record_of_take (map strip segs)).
    by rewrite <- !fmap_take, Htake.
Qed.

Lemma long_reply_uses_first_17_witness :
  ∃ d : gmap pystr pystr,
    (analyze_call (replying nineteen_segments) sample_model (py "call") fresh_world).1
    = Some d
    ∧ d !! py "CSM Name" = Some (py "a")
    ∧ d !! py "Pitch Flow Adherence" = Some (py "q")
    ∧ (analyze_call (replying (nineteen_segments ++ py "###t###"))
         sample_model (py "call") fresh_world).1 = Some d.
Proof.
  destruct (long_reply_uses_first_17 (replying nineteen_segments) sample_model
              (py "call") fresh_world nineteen_segments)
    as (d & Hd & _ & Hseg & Hstable); [reflexivity | vm_compute; lia |].
  exists d. split_and!; [exact Hd | | |].
  - exact (Hseg 0 (py "CSM Name") eq_refl).
  - exact (Hseg 16 (py "Pitch Flow Adherence") eq_refl).
  - exact (Hstable (replying (nineteen_segments ++ py "###t###")) sample_model
             (py "call") fresh_world (py "###t###") eq_refl).
Defined.

(** What [analyze_call] returns, when it returns a mapping, is complete. *)
Lemma analyze_call_complete (backend : list Request → Request → GenResult)
    (model : GenerativeModel) (text : pystr) (w : World) (d : gmap pystr pystr) :
  (analyze_call backend model text w).1 = Some d →
  dom d = list_to_set FIELD_KEYS ∧ size d = 17.
Proof.
  rewrite analyze_call_run. simpl. intros Hd.
  destruct (reply_text _) as [t|]; [|done]. simpl in Hd.
  rewrite parse_reply_spec in Hd. injection Hd as <-.
  pose proof (pad_length (map strip (split SEP (strip t)))) as Hlen.
  split; [by apply record_of_dom | by apply record_of_size].
Qed.

(** C6. When the generation attempt raises (the call itself, or reading the
    text of a malformed response), [analyze_call] returns [None]; and what it
    returns otherwise is never partial: it has all 17 keys. *)
Theorem failed_attempt_returns_none backend model text w :
  (backend (requests w) (analyze_request model text) = ApiError
   ∨ backend (requests w) (analyze_request model text) = Response None →
   (analyze_call backend model text w).1 = None)
  ∧ (∀ d : gmap pystr pystr,
       (analyze_call backend model text w).1 = Some d →
       dom d = list_to_set FIELD_KEYS ∧ size d = 17
       ∧ ∀ key, key ∈ FIELD_KEYS → is_Some (d !! key)).
Proof.
  split.
  - rewrite analyze_call_run. simpl. by intros [-> | ->].
  - intros d Hd. destruct (analyze_call_complete _ _ _ _ _ Hd) as [Hdom Hsize].
    split_and!; [done | done |].
    intros key Hkey. apply elem_of_dom. rewrite Hdom. by apply elem_of_list_to_set.
Qed.

Lemma failed_attempt_returns_none_witness :
  (analyze_call failing sample_model (py "call") fresh_world).1 = None
  ∧ (analyze_call (λ _ _, Response None) sample_model (py "call") fresh_world).1
    = None.
Proof.
  split.
  - apply (proj1 (failed_attempt_returns_none failing sample_model (py "call")
                    fresh_world)).
    left. reflexivity.
  - apply (proj1 (failed_attempt_returns_none (λ _ _, Response None) sample_model
                    (py "call") fresh_world)).
    right. reflexivity.
Defined.

(** C10. Every value of the mapping [analyze_call] returns is free of
    leading and trailing whitespace: it is the stripped form of a segment of
    the stripped reply, or the placeholder. *)
Theorem field_values_are_stripped
    (backend : list Request → Request → GenResult) (model : GenerativeModel)
    (text : pystr) (w : World) (d : gmap pystr pystr) (key v : pystr) :
  (analyze_call backend model text w).1 = Some d →
  d !! key = Some v →
  trimmed v
  ∧ ∃ (raw : pystr) i,
      backend (requests w) (analyze_request model text) = Response (Some raw)
      ∧ FIELD_KEYS !! i = Some key
      ∧ v = default PLACEHOLDER (strip <$> split SEP (strip raw) !! i).
Proof.
  rewrite analyze_call_run. simpl. intros Hd Hv.
  destruct (backend _ _) as [|[raw|]] eqn:Hreply; try done. simpl in Hd.
  rewrite parse_reply_spec in Hd. injection Hd as <-.
  set (segs := split SEP (strip raw)) in *.
  pose proof (pad_length (map strip segs)) as Hlen.
  apply record_of_value in Hv as (i & Hkey & Hi); [|done].
  assert (i < 17) as Hlt.
  { apply lookup_lt_Some in Hkey. by rewrite FIELD_KEYS_length in Hkey. }
  rewrite pad_lookup in Hi by done. injection Hi as <-.
  rewrite list_lookup_fmap. split.
  - destruct (segs !! i) as [seg|]; simpl.
    + apply strip_trimmed.
    + apply placeholder_trimmed.
  - by exists raw, i.
Qed.

Lemma field_values_are_stripped_witness :
  trimmed (py "Ravi")
  ∧ ∃ (raw : pystr) i,
      replying untidy_reply [] (analyze_request sample_model (py "call"))
      = Response (Some raw)
      ∧ FIELD_KEYS !! i = Some (py "Customer Name")
      ∧ py "Ravi" = default PLACEHOLDER (strip <$> split SEP (strip raw) !! i).
Proof.
  apply (field_values_are_stripped (replying untidy_reply) sample_model
           (py "call") fresh_world
           (record_of (pad (map strip (split SEP (strip untidy_reply)))))
           (py "Customer Name") (py "Ravi")).
  - rewrite analyze_call_run. simpl. by rewrite parse_reply_spec.
  - vm_compute. reflexivity.
Defined.

(** ** Model Selector *)

Lemma contains_truthy (sub m : pystr) :
  truthy sub = true → contains sub m = true → truthy m = true.
Proof. by destruct sub, m. Qed.

Lemma is_flash_truthy lower' (m : pystr) : is_flash lower' m = true → truthy m = true.
Proof. intros [_ H]%andb_prop. by apply (contains_truthy (py "1.5")). Qed.

Lemma is_pro_truthy lower' (m : pystr) : is_pro lower' m = true → truthy m = true.
Proof. intros [_ H]%andb_prop. by apply (contains_truthy (py "1.5")). Qed.

Lemma select_model_preferred unicode_lower (all_models : list pystr) :
  select_model unicode_lower all_models = preferred unicode_lower all_models.
Proof.
  unfold select_model, preferred.
  destruct (List.find (is_flash unicode_lower) all_models) as [m|] eqn:Hflash.
  { apply find_some in Hflash as [_ Hm]. apply is_flash_truthy in Hm.
    cbv zeta. by repeat (cbn [truthy_opt negb]; rewrite !Hm). }
  cbv zeta. cbn [truthy_opt negb].
  destruct (List.find (is_pro unicode_lower) all_models) as [m|] eqn:Hpro.
  { apply find_some in Hpro as [_ Hm]. apply is_pro_truthy in Hm.
    by repeat (cbn [truthy_opt negb]; rewrite !Hm). }
  cbn [truthy_opt negb]. destruct all_models as [|m rest]; [done|].
  cbn [truthy_opt]. by destruct (truthy m).
Qed.

(** The identifiers the API lists are resource names, none of them empty;
    on such a list the last guard, [if chosen_model:], drops nothing. *)
Lemma preferred_nonempty unicode_lower (all_models : list pystr) :
  Forall (λ m : pystr, m ≠ []) all_models →
  preferred unicode_lower all_models
  = match List.find (is_flash unicode_lower) all_models with
    | Some m => Some m
    | None =>
        match List.find (is_pro unicode_lower) all_models with
        | Some m => Some m
        | None => head all_models
        end
    end.
Proof.
  intros Hne. unfold preferred.
  destruct (List.find (is_flash unicode_lower) all_models); [done|].
  destruct (List.find (is_pro unicode_lower) all_models); [done|].
  destruct all_models as [|m rest]; [done|].
  apply Forall_cons in Hne as [Hm _]. by destruct m.
Qed.

Lemma select_model_none unicode_lower (all_models : list pystr) :
  Forall (λ m : pystr, m ≠ []) all_models →
  select_model unicode_lower all_models = None ↔ all_models = [].
Proof.
  intros Hne. rewrite select_model_preferred, (preferred_nonempty _ _ Hne).
  split; [|by intros ->].
  destruct (List.find (is_flash unicode_lower) all_models); [done|].
  destruct (List.find (is_pro unicode_lower) all_models); [done|].
  by destruct all_models.
Qed.

(** C3. On the identifiers the API lists (none is the empty string), the
    selector takes the first identifier that contains "flash" (whatever its
    case) and "1.5", else the first that contains "pro" (whatever its case)
    and "1.5", else the first identifier of the list; it selects nothing only
    when the list is empty.  [get_gemini_model] returns the handle of the
    selected identifier, and nothing when listing the models raises or no
    model supports content generation. *)
Theorem model_selection_priority (unicode_lower : pystr → pystr)
    (list_models : pystr → option (list ModelInfo))
    (all_models : list pystr) (api_key : pystr) :
  Forall (λ m : pystr, m ≠ []) all_models →
  select_model unicode_lower all_models
  = match List.find (is_flash unicode_lower) all_models with
    | Some m => Some m
    | None =>
        match List.find (is_pro unicode_lower) all_models with
        | Some m => Some m
        | None => head all_models
        end
    end
  ∧ (select_model unicode_lower all_models = None ↔ all_models = [])
  ∧ select_model unicode_lower
      [ py "models/gemini-1.0-pro"; py "models/gemini-1.5-flash-001";
        py "models/gemini-1.5-pro-002" ]
    = Some (py "models/gemini-1.5-flash-001")
  ∧ select_model unicode_lower
      [ py "models/gemini-1.0-pro"; py "models/Gemini-1.5-PRO";
        py "models/GEMINI-1.5-Flash" ]
    = Some (py "models/GEMINI-1.5-Flash")
  ∧ select_model unicode_lower [ py "models/gemini-1.0-pro" ]
    = Some (py "models/gemini-1.0-pro")
  ∧ (list_models api_key = None →
     get_gemini_model unicode_lower list_models api_key = None)
  ∧ (∀ models,
       list_models api_key = Some models →
       all_models
       = map name
           (filter (λ m, py "generateContent" ∈ supported_generation_methods m)
              models) →
       get_gemini_model unicode_lower list_models api_key
       = new_GenerativeModel <$> select_model unicode_lower all_models
       ∧ (get_gemini_model unicode_lower list_models api_key = None
          ↔ all_models = [])).
Proof.
  intros Hne. split_and!; try reflexivity.
  - by rewrite select_model_preferred, (preferred_nonempty _ _ Hne).
  - by apply select_model_none.
  - intros Hnone. unfold get_gemini_model. by rewrite Hnone.
  - intros models Hsome Hall.
    assert (get_gemini_model unicode_lower list_models api_key
            = new_GenerativeModel <$> select_model unicode_lower all_models)
      as Hget.
    { unfold get_gemini_model. rewrite Hsome, <- Hall.
      by destruct (select_model _ _). }
    split; [done|]. rewrite Hget, <- (select_model_none unicode_lower _ Hne).
    by destruct (select_model _ _).
Qed.

Lemma model_selection_priority_witness :
  get_gemini_model (λ s, s)
    (λ _, Some [ {| name := py "models/embedding-001";
                    supported_generation_methods := [py "embedContent"] |};
                 {| name := py "models/gemini-1.0-pro";
                    supported_generation_methods := [py "generateContent"] |};
                 {| name := py "models/gemini-1.5-pro-002";
                    supported_generation_methods := [py "generateContent"] |} ])
    (py "key")
  = Some (new_GenerativeModel (py "models/gemini-1.5-pro-002")).
Proof.
  pose proof (model_selection_priority (λ s, s)
    (λ _, Some [ {| name := py "models/embedding-001";
                    supported_generation_methods := [py "embedContent"] |};
                 {| name := py "models/gemini-1.0-pro";
                    supported_generation_methods := [py "generateContent"] |};
                 {| name := py "models/gemini-1.5-pro-002";
                    supported_generation_methods := [py "generateContent"] |} ])
    [py "models/gemini-1.0-pro"; py "models/gemini-1.5-pro-002"] (py "key"))
    as H.
  destruct H as (_ & _ & _ & _ & _ & _ & H).
  - repeat constructor; discriminate.
  - destruct (H _ eq_refl eq_refl) as [-> _]. reflexivity.
Defined.

(** ** Text Extractor *)

Section ExtractorFacts.

Context {Page : Type}.
Variable PdfReader : list byte → option (list Page).
Variable extract_text : Page → option pystr.

Lemma extract_loop_fails (pages : list Page) (page : Page) (text : pystr) :
  page ∈ pages → extract_text page = None →
  extract_loop Page extract_text pages text = None.
Proof.
  intros Hin Hfail. revert text.
  induction pages as [|p pages IH]; intros text; [by apply elem_of_nil in Hin|].
  simpl. apply elem_of_cons in Hin as [<-|Hin].
  - by rewrite Hfail.
  - destruct (extract_text p) as [t|]; simpl; [by apply IH|done].
Qed.

Lemma extract_loop_succeeds (pages : list Page) (texts : list pystr) (text : pystr) :
  map extract_text pages = map Some texts →
  extract_loop Page extract_text pages text
  = Some (text ++ concat (map (λ t, t ++ NL) texts)).
Proof.
  revert texts text.
  induction pages as [|p pages IH]; intros [|t texts] text Hmap; try done.
  - simpl. by rewrite app_nil_r.
  - simpl in Hmap. injection Hmap as Hp Hmap.
    simpl. rewrite Hp. simpl. rewrite (IH texts) by done.
    by rewrite <- !app_assoc.
Qed.

(** C4. When PyPDF2 raises on the bytes (corrupt input, not a PDF) or on
    some page, the extractor returns the empty string; being a total
    function to strings, it raises nothing. *)
Theorem extraction_failure_gives_empty (file_bytes : list byte) :
  (PdfReader file_bytes = None
   ∨ ∃ pages page, PdfReader file_bytes = Some pages
                   ∧ page ∈ pages ∧ extract_text page = None) →
  extract_text_from_pdf Page PdfReader extract_text file_bytes = [].
Proof.
  unfold extract_text_from_pdf.
  intros [-> | (pages & page & -> & Hin & Hfail)]; simpl; [done|].
  by rewrite (extract_loop_fails pages page).
Qed.

(** C5. When the document has pages and every page yields its text, the
    extractor returns the texts in page order, each followed by a newline;
    the result is not empty, and the text of page [i] comes right before
    that of page [i+1]. *)
Theorem extraction_concatenates_pages (file_bytes : list byte)
    (pages : list Page) (texts : list pystr) :
  PdfReader file_bytes = Some pages →
  map extract_text pages = map Some texts →
  pages ≠ [] →
  let out := extract_text_from_pdf Page PdfReader extract_text file_bytes in
  out = concat (map (λ t, t ++ NL) texts)
  ∧ out ≠ []
  ∧ ∀ i (t t' : pystr), texts !! i = Some t → texts !! S i = Some t' →
      ∃ before after, out = before ++ (t ++ NL) ++ (t' ++ NL) ++ after.
Proof.
  intros Hreader Hmap Hpages out.
  assert (out = concat (map (λ t, t ++ NL) texts)) as Hout.
  { subst out. unfold extract_text_from_pdf. rewrite Hreader. simpl.
    by rewrite (extract_loop_succeeds pages texts). }
  split_and!; [done | |].
  - rewrite Hout. destruct texts as [|t texts].
    + by destruct pages.
    + simpl. by destruct t.
  - intros i t t' Ht Ht'.
    exists (concat (map (λ t, t ++ NL) (take i texts))),
           (concat (map (λ t, t ++ NL) (drop (S (S i)) texts))).
    rewrite Hout.
    rewrite <- (take_drop_middle texts i t Ht) at 1.
    rewrite <- (take_drop_middle (drop (S i) texts) 0 t') at 1.
    + rewrite drop_drop. simpl.
      rewrite map_app, concat_app. simpl.
      by replace (S (i + 1)) with (S (S i)) by lia.
    + rewrite lookup_drop. by rewrite Nat.add_0_r.
Qed.

End ExtractorFacts.

Lemma extraction_failure_gives_empty_witness :
  extract_text_from_pdf pystr sample_reader Some [x00]%byte = []
  ∧ extract_text_from_pdf pystr sample_reader
      (λ p, if bool_decide (p = py "Goodbye") then None else Some p)
      two_page_pdf = [].
Proof.
  split.
  - apply (extraction_failure_gives_empty sample_reader Some [x00]%byte).
    left. reflexivity.
  - apply (extraction_failure_gives_empty sample_reader
             (λ p, if bool_decide (p = py "Goodbye") then None else Some p)
             two_page_pdf).
    right. exists [py "Hello Ravi"; py "Goodbye"], (py "Goodbye").
    split_and!; [reflexivity | | reflexivity].
    apply elem_of_cons. right. apply elem_of_cons. by left.
Defined.

Lemma extraction_concatenates_pages_witness :
  extract_text_from_pdf pystr sample_reader Some two_page_pdf
  = py "Hello Ravi" ++ NL ++ py "Goodbye" ++ NL.
Proof.
  destruct (extraction_concatenates_pages sample_reader Some two_page_pdf
              [py "Hello Ravi"; py "Goodbye"] [py "Hello Ravi"; py "Goodbye"])
    as (Hout & _); [reflexivity | reflexivity | discriminate |].
  exact Hout.
Defined.

(** ** Summary Generator *)

Lemma index_of_is_Some (x : pystr) (l : list pystr) :
  x ∈ l → is_Some (index_of x l).
Proof.
  induction l as [|y l IH]; intros Hin; [by apply elem_of_nil in Hin|].
  simpl. case_bool_decide as Hxy; [by eexists|].
  apply elem_of_cons in Hin as [?|Hin]; [done|].
  destruct (IH Hin) as [i ->]. by eexists.
Qed.

Lemma select_columns_is_Some {C} (labels : list pystr) (df : DataFrame C) :
  Forall (λ c, c ∈ columns df) labels → is_Some (select_columns labels df).
Proof.
  intros Hcols. unfold select_columns.
  destruct (mapM_is_Some_2 (λ c, index_of c (columns df)) labels) as [idxs ->].
  - eapply Forall_impl; [exact Hcols|]. intros c Hc. by apply index_of_is_Some.
  - by eexists.
Qed.

Lemma csm_rows_is_Some (df : DataFrame pystr) (csm_name : pystr) :
  Forall (λ c, c ∈ columns df) (py "CSM Name" :: SUMMARY_COLS) →
  is_Some (csm_rows df csm_name).
Proof.
  intros Hcols. apply Forall_cons in Hcols as [Hname Hcols].
  unfold csm_rows, column.
  destruct (index_of_is_Some _ _ Hname) as [i ->]. cbn [mbind option_bind].
  by apply select_columns_is_Some.
Qed.

Lemma generate_csm_summary_run backend to_csv json_loads model
    (df : DataFrame pystr) (csm_name : pystr) (w : World) (csm_cols : DataFrame pystr) :
  csm_rows df csm_name = Some csm_cols →
  generate_csm_summary backend to_csv json_loads model df csm_name w
  = (Some
       (default (summary_sentinel csm_name)
          (reply_text
             (backend (requests w)
                (summary_request model csm_name (to_csv csm_cols)))
           ≫= λ t, json_loads (clean_reply t))),
     log_request (summary_request model csm_name (to_csv csm_cols)) w).
Proof.
  intros Hrows. unfold generate_csm_summary. fold (csm_rows df csm_name).
  rewrite Hrows. unfold bind, generate_content, ret.
  fold (summary_request model csm_name (to_csv csm_cols)).
  destruct (backend _ _) as [|[t|]]; simpl; [done | | done].
  fold (clean_reply t). by destruct (json_loads (clean_reply t)).
Qed.

(** C7. On a frame that has the columns the prompt needs, the summary
    generator always returns a value: the parsed reply when the reply, once
    the fence markers are removed and the text stripped, is valid JSON, and
    the sentinel of the requested salesperson when it is not or when the
    call raises. *)
Theorem summary_is_parsed_or_sentinel
    (backend : list Request → Request → GenResult)
    (to_csv : DataFrame pystr → pystr) (json_loads : pystr → option value)
    (model : GenerativeModel) (df : DataFrame pystr) (csm_name : pystr) (w : World) :
  Forall (λ c, c ∈ columns df) (py "CSM Name" :: SUMMARY_COLS) →
  ∃ (csm_cols : DataFrame pystr) (result : value),
    csm_rows df csm_name = Some csm_cols
    ∧ (generate_csm_summary backend to_csv json_loads model df csm_name w).1
      = Some result
    ∧ let reply :=
        backend (requests w) (summary_request model csm_name (to_csv csm_cols)) in
      (∀ t v, reply = Response (Some t) → json_loads (clean_reply t) = Some v →
         result = v)
      ∧ (∀ t, reply = Response (Some t) → json_loads (clean_reply t) = None →
         result = summary_sentinel csm_name)
      ∧ (reply = ApiError ∨ reply = Response None →
         result = summary_sentinel csm_name)
      ∧ summary_sentinel csm_name
        = JObject [ (py "CSM Name", JString csm_name);
                    (py "Strengths", JString (py "Error"));
                    (py "Areas of Improvement", JString (py "Error")) ].
Proof.
  intros Hcols.
  destruct (csm_rows_is_Some df csm_name Hcols) as [csm_cols Hrows].
  exists csm_cols. eexists. split; [done|].
  rewrite (generate_csm_summary_run _ _ _ _ _ _ _ _ Hrows). simpl.
  split; [reflexivity|]. split_and!.
  - intros t v -> Hv. simpl. by rewrite Hv.
  - intros t -> Hv. simpl. by rewrite Hv.
  - by intros [-> | ->].
  - done.
Qed.

Example fence_markers_are_removed : clean_reply fenced_reply = sample_json_text.
Proof. vm_compute. reflexivity. Qed.

Lemma summary_is_parsed_or_sentinel_witness :
  (generate_csm_summary (replying fenced_reply) sample_to_csv sample_loads
     sample_model sample_frame (py "Asha") fresh_world).1
  = Some sample_json_value
  ∧ (generate_csm_summary (replying (py "Sorry, no JSON today")) sample_to_csv
       sample_loads sample_model sample_frame (py "Asha") fresh_world).1
    = Some (summary_sentinel (py "Asha"))
  ∧ (generate_csm_summary failing sample_to_csv sample_loads
       sample_model sample_frame (py "Asha") fresh_world).1
    = Some (summary_sentinel (py "Asha")).
Proof.
  assert (Forall (λ c, c ∈ columns sample_frame) (py "CSM Name" :: SUMMARY_COLS))
    as Hcols.
  { apply (bool_decide_unpack _). vm_compute. exact I. }
  split_and!.
  - destruct (summary_is_parsed_or_sentinel (replying fenced_reply) sample_to_csv
                sample_loads sample_model sample_frame (py "Asha") fresh_world Hcols)
      as (cols & result & _ & -> & Hparsed & _).
    f_equal. apply (Hparsed fenced_reply); [reflexivity|].
    vm_compute. reflexivity.
  - destruct (summary_is_parsed_or_sentinel (replying (py "Sorry, no JSON today"))
                sample_to_csv sample_loads sample_model sample_frame (py "Asha")
                fresh_world Hcols)
      as (cols & result & _ & -> & _ & Hbad & _).
    f_equal. apply (Hbad (py "Sorry, no JSON today")); [reflexivity|].
    vm_compute. reflexivity.
  - destruct (summary_is_parsed_or_sentinel failing sample_to_csv sample_loads
                sample_model sample_frame (py "Asha") fresh_world Hcols)
      as (cols & result & _ & -> & _ & _ & Hfail & _).
    f_equal. apply Hfail. left. reflexivity.
Defined.

(** ** Report Builder *)

Lemma letters_loop_length fuel (col_idx : N) (letters : pystr) :
  length letters ≤ length (letters_loop fuel col_idx letters).
Proof.
  revert col_idx letters. induction fuel as [|fuel IH]; intros col_idx letters; simpl; [lia|].
  destruct (0 <? col_idx)%N; [|lia].
  destruct (N.div_eucl col_idx 26) as [q r].
  destruct (r =? 0)%N.
  - etrans; [|apply IH]. rewrite length_app. simpl. lia.
  - etrans; [|apply IH]. rewrite length_app. simpl. lia.
Qed.

(** Columns 1 to 26 have one letter. *)
Lemma get_column_letter_single (n : N) :
  (1 ≤ n ≤ 26)%N → get_column_letter n = [(n + 64)%N].
Proof.
  intros [Hlo Hhi]. destruct n as [|p]; [lia|].
  do 5 (try destruct p as [p|p|]); try lia; reflexivity.
Qed.

(** Columns from 27 on have at least two letters. *)
Lemma get_column_letter_long (n : N) :
  (26 < n)%N → 2 ≤ length (get_column_letter n).
Proof.
  intros Hn. unfold get_column_letter. rewrite length_reverse.
  destruct (N.to_nat n) as [|[|fuel]] eqn:Hfuel; [lia|lia|].
  cbn [letters_loop].
  destruct (N.ltb_spec 0 n) as [_|]; [|lia].
  pose proof (N.div_eucl_spec n 26) as Hspec.
  pose proof (N.mod_lt n 26 ltac:(lia)) as Hmod. unfold N.modulo in Hmod.
  destruct (N.div_eucl n 26) as [q r]. simpl in Hmod.
  destruct (N.eqb_spec r 0) as [->|Hr].
  - destruct (N.ltb_spec 0 (q - 1)) as [_|]; [|lia].
    destruct (N.div_eucl (q - 1) 26) as [q' r'].
    destruct (r' =? 0)%N; (etrans; [|apply letters_loop_length]);
      rewrite !length_app; simpl; lia.
  - destruct (N.ltb_spec 0 q) as [_|]; [|lia].
    destruct (N.div_eucl q 26) as [q' r'].
    destruct (r' =? 0)%N; (etrans; [|apply letters_loop_length]);
      rewrite !length_app; simpl; lia.
Qed.

(** Only the second and third columns are lettered B and C. *)
Lemma letter_B_or_C (i : nat) :
  1 ≤ i →
  get_column_letter (N.of_nat i) ∈ [py "B"; py "C"] ↔ i = 2 ∨ i = 3.
Proof.
  intros Hi. split.
  - intros Hin. destruct (decide (i ≤ 26)) as [Hle|Hgt].
    + rewrite get_column_letter_single in Hin by lia.
      apply elem_of_cons in Hin as [Hb|Hin].
      { left. injection Hb as Hb. lia. }
      apply elem_of_cons in Hin as [Hc|Hin].
      { right. injection Hc as Hc. lia. }
      by apply elem_of_nil in Hin.
    + pose proof (get_column_letter_long (N.of_nat i) ltac:(lia)) as Hlen.
      apply elem_of_cons in Hin as [Hb|Hin]; [rewrite Hb in Hlen; simpl in Hlen; lia|].
      apply elem_of_cons in Hin as [Hc|Hin]; [rewrite Hc in Hlen; simpl in Hlen; lia|].
      by apply elem_of_nil in Hin.
  - intros [-> | ->].
    + apply elem_of_cons. by left.
    + apply elem_of_cons. right. apply elem_of_cons. by left.
Qed.

Lemma style_column_sets sheet ws (col_letter : pystr) :
  column_styled sheet (style_column sheet ws col_letter) col_letter.
Proof. unfold column_styled. simpl. by rewrite !lookup_insert_eq. Qed.

Lemma style_column_keeps sheet ws (a col_letter : pystr) :
  column_styled sheet ws col_letter →
  column_styled sheet (style_column sheet ws a) col_letter.
Proof.
  intros (Hw & Hfill & Hfont). unfold column_styled. simpl. split_and!.
  - destruct (decide (a = col_letter)) as [->|Hne].
    + apply lookup_insert_eq.
    + by rewrite lookup_insert_ne.
  - destruct (decide (a ++ py "1" = col_letter ++ py "1")) as [->|Hne].
    + apply lookup_insert_eq.
    + by rewrite lookup_insert_ne.
  - destruct (decide (a ++ py "1" = col_letter ++ py "1")) as [->|Hne].
    + apply lookup_insert_eq.
    + by rewrite lookup_insert_ne.
Qed.

Lemma style_fold_keeps sheet (letters : list pystr) ws (col_letter : pystr) :
  column_styled sheet ws col_letter →
  column_styled sheet (foldl (style_column sheet) ws letters) col_letter.
Proof.
  revert ws. induction letters as [|a letters IH]; intros ws Hst; [done|].
  simpl. by apply IH, style_column_keeps.
Qed.

Lemma style_fold_sets sheet (letters : list pystr) ws (col_letter : pystr) :
  col_letter ∈ letters →
  column_styled sheet (foldl (style_column sheet) ws letters) col_letter.
Proof.
  revert ws. induction letters as [|a letters IH]; intros ws Hin.
  - by apply elem_of_nil in Hin.
  - simpl. apply elem_of_cons in Hin as [->|Hin].
    + apply style_fold_keeps, style_column_sets.
    + by apply IH.
Qed.

Lemma style_fold_header sheet (letters : list pystr) ws :
  header (foldl (style_column sheet) ws letters) = header ws
  ∧ body (foldl (style_column sheet) ws letters) = body ws.
Proof.
  revert ws. induction letters as [|a letters IH]; intros ws; [done|].
  simpl. by destruct (IH (style_column sheet ws a)) as [-> ->].
Qed.

Lemma style_sheet_styled sheet ws :
  header (style_sheet sheet ws) = header ws
  ∧ body (style_sheet sheet ws) = body ws
  ∧ styled (λ i, if bool_decide (sheet = py "CSM Summary")
                    && bool_decide (i = 2 ∨ i = 3)
                 then 80%N else 40%N)
      (style_sheet sheet ws).
Proof.
  unfold style_sheet.
  destruct (style_fold_header sheet (column_letters ws) ws) as [Hh Hb].
  split_and!; [done | done |].
  intros i Hi. rewrite Hh in Hi.
  destruct (style_fold_sets sheet (column_letters ws) ws
              (get_column_letter (N.of_nat i))) as (Hw & Hfill & Hfont).
  { unfold column_letters. apply list_elem_of_fmap. exists i. split; [done|].
    apply elem_of_seq. lia. }
  split_and!; [|done|done].
  rewrite Hw. f_equal. unfold column_width.
  destruct (bool_decide (sheet = py "CSM Summary")); [|done]. simpl.
  pose proof (letter_B_or_C i ltac:(lia)) as HBC.
  by rewrite (bool_decide_ext _ _ HBC).
Qed.

Lemma existsb_false_Forall {A} (f : A → bool) (l : list A) :
  existsb f l = false ↔ Forall (λ x, f x = false) l.
Proof.
  induction l as [|x l IH]; simpl; [by split; [constructor|]|].
  rewrite orb_false_iff, IH, Forall_cons. done.
Qed.

Lemma forallb_true_Forall {A} (f : A → bool) (l : list A) :
  forallb f l = true ↔ Forall (λ x, f x = true) l.
Proof.
  induction l as [|x l IH]; simpl; [by split; [constructor|]|].
  rewrite andb_true_iff, IH, Forall_cons. done.
Qed.

(** The writer takes a text exactly when the text is accepted. *)
Lemma string_cell_is_Some xml_char (s : pystr) :
  is_Some (string_cell xml_char s) ↔ accepted xml_char s.
Proof.
  unfold string_cell, accepted. cbv zeta.
  generalize (take MAX_CELL_CHARS s). intros value.
  rewrite Forall_and, <- existsb_false_Forall, <- forallb_true_Forall.
  destruct (existsb ILLEGAL_CHARACTERS value).
  { split; [by intros [? ?] | by intros [? _]]. }
  destruct (forallb xml_char value); simpl.
  - split; [done | by eexists].
  - split; [by intros [? ?] | by intros [_ ?]].
Qed.

Lemma object_cell_is_Some xml_char py_str number_cell (v : value) :
  is_Some (object_cell xml_char py_str number_cell v)
  ↔ ∀ s, cell_text py_str v = Some s → accepted xml_char s.
Proof.
  destruct v; simpl.
  1-3: split; [by intros _ s | by eexists].
  all: rewrite string_cell_is_Some; split;
    [by intros H s' [= <-] | by intros H; apply H].
Qed.

Lemma text_cell_is_Some xml_char (c : pystr) :
  is_Some (string_cell xml_char c) ↔ ∀ s, Some c = Some s → accepted xml_char s.
Proof.
  rewrite string_cell_is_Some.
  split; [by intros H s' [= <-] | by intros H; apply H].
Qed.

(** pandas writes a frame exactly when it is writable. *)
Lemma sheet_of_frame_is_Some {C} xml_char (cell : C → option Cell)
    (text_of : C → option pystr) (df : DataFrame C) :
  (∀ c, is_Some (cell c) ↔ ∀ s, text_of c = Some s → accepted xml_char s) →
  is_Some (sheet_of_frame xml_char cell df) ↔ writable xml_char text_of df.
Proof.
  intros Hcell. unfold sheet_of_frame, writable, fits.
  assert (is_Some (mapM (string_cell xml_char) (columns df))
          ↔ Forall (accepted xml_char) (columns df)) as Hhead.
  { rewrite mapM_is_Some. apply Forall_proper; [|done].
    intros s. apply string_cell_is_Some. }
  assert (is_Some (mapM (mapM cell) (rows df))
          ↔ Forall (Forall (λ c, ∀ s, text_of c = Some s → accepted xml_char s))
              (rows df)) as Hbody.
  { rewrite mapM_is_Some. apply Forall_proper; [|done].
    intros row. simpl. rewrite mapM_is_Some. apply Forall_proper; [|done].
    intros c. apply Hcell. }
  rewrite <- Hhead, <- Hbody.
  destruct (N.ltb_spec MAX_ROWS (N.of_nat (length (rows df)))) as [Hr|Hr]; simpl.
  { split; [by intros [? ?] | intros [[? _] _]; lia]. }
  destruct (N.ltb_spec MAX_COLS (N.of_nat (length (columns df)))) as [Hc|Hc]; simpl.
  { split; [by intros [? ?] | intros [[_ ?] _]; lia]. }
  destruct (mapM (string_cell xml_char) (columns df)) as [h|]; simpl.
  2: { split; [by intros [? ?] | by intros (_ & [? ?] & _)]. }
  destruct (mapM (mapM cell) (rows df)) as [b|]; simpl.
  2: { split; [by intros [? ?] | by intros (_ & _ & [? ?])]. }
  split; [intros _; split_and!; by eauto | by eexists].
Qed.

(** What pandas leaves on a fresh sheet. *)
Lemma sheet_of_frame_Some {C} xml_char (cell : C → option Cell)
    (df : DataFrame C) (ws : Worksheet) :
  sheet_of_frame xml_char cell df = Some ws →
  Forall2 (λ label c, string_cell xml_char label = Some c) (columns df) (header ws)
  ∧ Forall2 (Forall2 (λ x c, cell x = Some c)) (rows df) (body ws)
  ∧ widths ws = ∅ ∧ fills ws = ∅ ∧ fonts ws = ∅.
Proof.
  unfold sheet_of_frame. destruct (_ || _)%bool; [done|].
  destruct (mapM (string_cell xml_char) (columns df)) as [h|] eqn:Hh; [|done].
  destruct (mapM (mapM cell) (rows df)) as [b|] eqn:Hb; [|done].
  simpl. intros [= <-]. simpl. split_and!; try done.
  - by apply mapM_Some.
  - apply mapM_Some in Hb. eapply Forall2_impl; [exact Hb|].
    intros row cells Hrow. by apply mapM_Some.
Qed.

(** What [to_excel] returns, sheet by sheet. *)
Lemma to_excel_sheets xml_char py_str number_cell (df_analysis : DataFrame pystr)
    (df_summary : option (DataFrame value)) :
  to_excel xml_char py_str number_cell df_analysis df_summary
  = ws ← sheet_of_frame xml_char (string_cell xml_char) df_analysis;
    match df_summary with
    | Some df =>
        ws' ← sheet_of_frame xml_char (object_cell xml_char py_str number_cell) df;
        Some [ (py "Call Analysis", style_sheet (py "Call Analysis") ws);
               (py "CSM Summary", style_sheet (py "CSM Summary") ws') ]
    | None => Some [ (py "Call Analysis", style_sheet (py "Call Analysis") ws) ]
    end.
Proof.
  unfold to_excel.
  destruct (sheet_of_frame xml_char (string_cell xml_char) df_analysis) as [ws|];
    [|done].
  destruct df_summary as [df|]; [|done]. simpl.
  by destruct (sheet_of_frame xml_char _ df).
Qed.

(** A text without refused characters is accepted, and so is a frame of
    such texts that fits a sheet. *)
Lemma clean_text_accepted xml_char (s : pystr) :
  clean_text xml_char s = true → accepted xml_char s.
Proof.
  unfold clean_text, accepted. rewrite forallb_true_Forall. intros Hs.
  apply Forall_take. eapply Forall_impl; [exact Hs|].
  intros c [Hill Hxml]%andb_prop. by destruct (ILLEGAL_CHARACTERS c).
Qed.

Lemma clean_frame_writable xml_char (df : DataFrame pystr) :
  fits df →
  forallb (clean_text xml_char) (columns df) = true →
  forallb (forallb (clean_text xml_char)) (rows df) = true →
  writable xml_char Some df.
Proof.
  intros Hfits Hcols Hrows. split_and!; [done | |].
  - apply forallb_true_Forall in Hcols. eapply Forall_impl; [exact Hcols|].
    intros s. apply clean_text_accepted.
  - apply forallb_true_Forall in Hrows. eapply Forall_impl; [exact Hrows|].
    intros row Hrow. apply forallb_true_Forall in Hrow.
    eapply Forall_impl; [exact Hrow|].
    intros c Hc s [= <-]. by apply clean_text_accepted.
Qed.

Lemma clean_summary_writable xml_char py_str (df : DataFrame value) :
  fits df →
  forallb (clean_text xml_char) (columns df) = true →
  forallb (forallb (λ v, match cell_text py_str v with
                         | Some s => clean_text xml_char s
                         | None => true
                         end)) (rows df) = true →
  writable xml_char (cell_text py_str) df.
Proof.
  intros Hfits Hcols Hrows. split_and!; [done | |].
  - apply forallb_true_Forall in Hcols. eapply Forall_impl; [exact Hcols|].
    intros s. apply clean_text_accepted.
  - apply forallb_true_Forall in Hrows. eapply Forall_impl; [exact Hrows|].
    intros row Hrow. apply forallb_true_Forall in Hrow.
    eapply Forall_impl; [exact Hrow|].
    intros v Hv s Hs. cbv beta in Hv. rewrite Hs in Hv.
    by apply clean_text_accepted.
Qed.

(** On a frame of call records that is not writable, [to_excel] raises. *)
Lemma to_excel_refused xml_char py_str number_cell (df_analysis : DataFrame pystr)
    (df_summary : option (DataFrame value)) :
  ¬ writable xml_char Some df_analysis →
  to_excel xml_char py_str number_cell df_analysis df_summary = None.
Proof.
  intros Hno. rewrite to_excel_sheets.
  destruct (sheet_of_frame xml_char (string_cell xml_char) df_analysis) as [ws|]
    eqn:Hws; [|done].
  destruct Hno.
  apply (sheet_of_frame_is_Some xml_char (string_cell xml_char) Some);
    [apply text_cell_is_Some | by eexists].
Qed.

Lemma accepted_no_illegal xml_char (s : pystr) :
  accepted xml_char s → existsb ILLEGAL_CHARACTERS (take MAX_CELL_CHARS s) = false.
Proof.
  unfold accepted. rewrite Forall_and, <- existsb_false_Forall. by intros [? _].
Qed.

(** C8, as the claim states it, fails: the record of a reply with a
    vertical tab in a field is a call record like any other, and [to_excel]
    raises on its frame, with or without summaries, whatever the XML writer
    accepts.  It raises as well on a frame of more rows than a sheet has. *)
Lemma workbook_refused_on_control_character :
  frame_of_results
    (process_file pystr sample_reader Some (replying reply_with_control_character)
       sample_model sample_file [] fresh_world).1
  = Some control_character_frame
  ∧ (∀ (xml_char : char → bool) (py_str : value → pystr)
       (number_cell : pystr → Cell) (df_summary : option (DataFrame value)),
       to_excel xml_char py_str number_cell control_character_frame df_summary
       = None)
  ∧ (∀ (xml_char : char → bool) (py_str : value → pystr)
       (number_cell : pystr → Cell) (df_summary : option (DataFrame value)),
       to_excel xml_char py_str number_cell oversized_frame df_summary = None).
Proof.
  split_and!; [vm_compute; reflexivity | |].
  - intros xml_char py_str number_cell df_summary.
    apply to_excel_refused. intros (_ & _ & Hrows).
    pose proof (Forall_lookup_1 _ _ 0 _ Hrows eq_refl) as Hrow.
    pose proof (Forall_lookup_1 _ _ 1 _ Hrow eq_refl _ eq_refl) as Hcell.
    apply accepted_no_illegal in Hcell. vm_compute in Hcell. discriminate Hcell.
  - intros xml_char py_str number_cell df_summary.
    apply to_excel_refused. intros ([Hrows _] & _).
    unfold oversized_frame in Hrows. cbn [rows] in Hrows.
    rewrite length_replicate, N2Nat.id in Hrows. unfold MAX_ROWS in Hrows. lia.
Qed.

(** C8, amended.  On a frame of call records that the workbook takes (it
    fits a sheet and its texts hold no refused character), and a frame of
    summaries, when there is one, that it takes likewise, [to_excel] returns
    a workbook: without summaries it has the single sheet 'Call Analysis';
    with summaries it has 'Call Analysis' and 'CSM Summary', in this order.
    Each sheet has a header cell for each column of its frame; every column's
    header cell has the solid 1F497D fill and the bold white font; columns B
    and C (the second and third) of the summary sheet are 80 wide and every
    other column of either sheet is 40 wide. *)
Theorem workbook_layout (xml_char : char → bool) (py_str : value → pystr)
    (number_cell : pystr → Cell) (df_analysis : DataFrame pystr) :
  writable xml_char Some df_analysis →
  (∃ ws,
     to_excel xml_char py_str number_cell df_analysis None
     = Some [(py "Call Analysis", ws)]
     ∧ Forall2 (λ label c, string_cell xml_char label = Some c)
         (columns df_analysis) (header ws)
     ∧ styled (λ _, 40%N) ws)
  ∧ (∀ df_summary : DataFrame value,
       writable xml_char (cell_text py_str) df_summary →
       ∃ ws ws',
         to_excel xml_char py_str number_cell df_analysis (Some df_summary)
         = Some [(py "Call Analysis", ws); (py "CSM Summary", ws')]
         ∧ Forall2 (λ label c, string_cell xml_char label = Some c)
             (columns df_analysis) (header ws)
         ∧ Forall2 (λ label c, string_cell xml_char label = Some c)
             (columns df_summary) (header ws')
         ∧ styled (λ _, 40%N) ws
         ∧ styled (λ i, if bool_decide (i = 2 ∨ i = 3) then 80%N else 40%N) ws')
  ∧ get_column_letter 2 = py "B"
  ∧ get_column_letter 3 = py "C"
  ∧ header_fill = {| start_color := py "1F497D"; end_color := py "1F497D";
                     fill_type := py "solid" |}
  ∧ header_font = {| color := py "FFFFFF"; bold := true |}.
Proof.
  intros Hdf.
  apply (sheet_of_frame_is_Some xml_char (string_cell xml_char) Some)
    in Hdf as [ws0 Hws0]; [|apply text_cell_is_Some].
  destruct (sheet_of_frame_Some _ _ _ _ Hws0) as (Hhead & _).
  destruct (style_sheet_styled (py "Call Analysis") ws0) as (Hh & _ & Hst).
  split_and!; try reflexivity.
  - exists (style_sheet (py "Call Analysis") ws0).
    rewrite to_excel_sheets, Hws0. split; [done|].
    split; [by rewrite Hh | exact Hst].
  - intros df_summary Hsum.
    apply (sheet_of_frame_is_Some xml_char
             (object_cell xml_char py_str number_cell) (cell_text py_str))
      in Hsum as [ws1 Hws1]; [|apply object_cell_is_Some].
    destruct (sheet_of_frame_Some _ _ _ _ Hws1) as (Hhead' & _).
    destruct (style_sheet_styled (py "CSM Summary") ws1) as (Hh' & _ & Hst').
    exists (style_sheet (py "Call Analysis") ws0),
           (style_sheet (py "CSM Summary") ws1).
    rewrite to_excel_sheets, Hws0. simpl. rewrite Hws1. simpl.
    split_and!; [done | by rewrite Hh | by rewrite Hh' | exact Hst | exact Hst'].
Qed.

Lemma sample_frame_writable : writable sample_xml_char Some sample_frame.
Proof.
  apply clean_frame_writable; [split; by vm_compute | by vm_compute..].
Qed.

Lemma workbook_layout_witness :
  ∃ ws ws',
    to_excel sample_xml_char sample_py_str sample_number_cell sample_frame
      (Some sample_summary_frame)
    = Some [(py "Call Analysis", ws); (py "CSM Summary", ws')]
    ∧ styled (λ _, 40%N) ws
    ∧ styled (λ i, if bool_decide (i = 2 ∨ i = 3) then 80%N else 40%N) ws'.
Proof.
  destruct (workbook_layout sample_xml_char sample_py_str sample_number_cell
              sample_frame sample_frame_writable) as (_ & Hsum & _).
  destruct (Hsum sample_summary_frame) as (ws & ws' & Hwb & _ & _ & Hst & Hst').
  - apply clean_summary_writable; [split; by vm_compute | by vm_compute..].
  - exists ws, ws'. split_and!; [exact Hwb | exact Hst | exact Hst'].
Defined.

Example workbook_of_two_frames :
  map (λ '(sheet, ws), (sheet, map_to_list (widths ws)))
    <$> to_excel sample_xml_char sample_py_str sample_number_cell sample_frame
          (Some sample_summary_frame)
  = Some
      [ (py "Call Analysis",
         map_to_list (gset_to_gmap 40%N
           (list_to_set (map (λ i, get_column_letter (N.of_nat i)) (seq 1 18)))));
        (py "CSM Summary",
         map_to_list ({[ py "A" := 40%N; py "B" := 80%N; py "C" := 80%N ]}
                        : gmap pystr N)) ].
Proof. vm_compute. reflexivity. Qed.

(** What the cells of a saved sheet hold for some texts. *)
Example cells_of_some_texts :
  map (string_cell sample_xml_char)
    [ py "Ravi"; EMPTY; py "=1+1"; py "="; py "#N/A"; py "a" ++ [11%N] ++ py "b";
      [55296%N] ]
  = [ Some (TextCell (py "Ravi")); Some EmptyCell; Some (FormulaCell (py "=1+1"));
      Some (TextCell (py "=")); Some (ErrorCell (py "#N/A")); None; None ].
Proof. vm_compute. reflexivity. Qed.

(** ** Orchestrator *)

Lemma analyze_call_truthy (backend : list Request → Request → GenResult)
    (model : GenerativeModel) (text : pystr) (w : World) (d : gmap pystr pystr) :
  (analyze_call backend model text w).1 = Some d → truthy_dict (Some d) = true.
Proof.
  intros Hd. destruct (analyze_call_complete _ _ _ _ _ Hd) as [_ Hsize].
  simpl. case_bool_decide as Hempty; [|done].
  rewrite Hempty, map_size_empty in Hsize. lia.
Qed.

Lemma sleep_requests ms (w : World) : requests (sleep ms w).2 = requests w.
Proof. reflexivity. Qed.

Lemma analyze_call_requests backend model text w :
  requests (analyze_call backend model text w).2
  = requests w ++ [analyze_request model text].
Proof. by rewrite analyze_call_run. Qed.

Section OrchestratorFacts.

Context {Page : Type}.
Variable PdfReader : list byte → option (list Page).
Variable extract_text : Page → option pystr.
Variable backend : list Request → Request → GenResult.

(** One turn of the retry loop: an attempt, then either the record is
    appended and the loop is left, or a pause and the next turn. *)
Lemma retry_loop_turn (model : GenerativeModel) (text name : pystr)
    (attempt : nat) (attempts : list nat)
    (results : list (gmap pystr pystr)) (w : World) :
  retry_loop backend model text name (attempt :: attempts) results w
  = match (analyze_call backend model text w).1 with
    | Some d =>
        (results ++ [<[py "File Name" := name]> d],
         (analyze_call backend model text w).2)
    | None =>
        retry_loop backend model text name attempts results
          (sleep 2000 (analyze_call backend model text w).2).2
    end.
Proof.
  cbn [retry_loop]. unfold bind at 1.
  destruct (analyze_call backend model text w) as [[d|] w1] eqn:Hcall; simpl.
  - assert (truthy_dict (Some d) = true) as Htruthy.
    { apply (analyze_call_truthy backend model text w). by rewrite Hcall. }
    simpl in Htruthy. by rewrite Htruthy.
  - done.
Qed.

(** C9. A transcript gets at most three analysis attempts.  When its text
    is not blank: the first attempt that returns a mapping ends the loop and
    appends that one mapping, with the file name added, to the results;
    attempts that return [None] are each followed by a 2 s pause, and after
    three of them the results are left as they were.  A blank text gets no
    attempt and no record. *)
Theorem retry_at_most_three_attempts (model : GenerativeModel)
    (uploaded_file : UploadedFile) (results : list (gmap pystr pystr)) (w : World) :
  let text :=
    extract_text_from_pdf Page PdfReader extract_text (getvalue uploaded_file) in
  let name := file_name uploaded_file in
  let a1 := analyze_call backend model text w in
  let a2 := analyze_call backend model text (sleep 2000 a1.2).2 in
  let a3 := analyze_call backend model text (sleep 2000 a2.2).2 in
  let out :=
    process_file Page PdfReader extract_text backend model uploaded_file results w in
  length (requests out.2) ≤ length (requests w) + 3
  ∧ (truthy (strip text) = true →
     (∀ d, a1.1 = Some d →
        out = (results ++ [<[py "File Name" := name]> d], (sleep 1000 a1.2).2))
     ∧ (∀ d, a1.1 = None → a2.1 = Some d →
        out = (results ++ [<[py "File Name" := name]> d], (sleep 1000 a2.2).2))
     ∧ (∀ d, a1.1 = None → a2.1 = None → a3.1 = Some d →
        out = (results ++ [<[py "File Name" := name]> d], (sleep 1000 a3.2).2))
     ∧ (a1.1 = None → a2.1 = None → a3.1 = None →
        out = (results, (sleep 1000 (sleep 2000 a3.2).2).2)))
  ∧ (truthy (strip text) = false →
     out = (results, (sleep 1000 w).2)).
Proof.
  intros text name a1 a2 a3 out.
  assert (truthy (strip text) = true →
          out = match a1.1, a2.1, a3.1 with
                | Some d, _, _ =>
                    (results ++ [<[py "File Name" := name]> d], (sleep 1000 a1.2).2)
                | None, Some d, _ =>
                    (results ++ [<[py "File Name" := name]> d], (sleep 1000 a2.2).2)
                | None, None, Some d =>
                    (results ++ [<[py "File Name" := name]> d], (sleep 1000 a3.2).2)
                | None, None, None =>
                    (results, (sleep 1000 (sleep 2000 a3.2).2).2)
                end) as Hrun.
  { intros Htext. subst out. unfold process_file. fold text name.
    rewrite Htext. unfold bind at 1. cbn [seq].
    rewrite retry_loop_turn. fold a1. destruct (a1.1) as [d1|]; [done|].
    rewrite retry_loop_turn. fold a2. destruct (a2.1) as [d2|]; [done|].
    rewrite retry_loop_turn. fold a3. by destruct (a3.1) as [d3|]. }
  assert (truthy (strip text) = false → out = (results, (sleep 1000 w).2)) as Hskip.
  { intros Htext. subst out. unfold process_file. fold text.
    by rewrite Htext. }
  split_and!.
  - destruct (truthy (strip text)).
    + rewrite Hrun by done.
      destruct (a1.1), (a2.1), (a3.1); cbn [snd]; subst a1 a2 a3;
        repeat (rewrite sleep_requests || rewrite analyze_call_requests
                || rewrite length_app);
        cbn [length]; lia.
    + rewrite Hskip by done. cbn [snd]. rewrite sleep_requests. lia.
  - intros Htext. specialize (Hrun Htext). split_and!.
    + intros d Hd. by rewrite Hd in Hrun.
    + intros d Hn Hd. by rewrite Hn, Hd in Hrun.
    + intros d Hn1 Hn2 Hd. by rewrite Hn1, Hn2, Hd in Hrun.
    + intros Hn1 Hn2 Hn3. by rewrite Hn1, Hn2, Hn3 in Hrun.
  - exact Hskip.
Qed.

End OrchestratorFacts.

Lemma retry_at_most_three_attempts_witness :
  let out :=
    process_file pystr sample_reader Some flaky sample_model sample_file []
      fresh_world in
  out.1 = [<[py "File Name" := py "call1.pdf"]>
             (record_of (pad (map strip (split SEP (strip ten_segments)))))]
  ∧ length (requests out.2) = 3
  ∧ slept out.2 = [2000; 2000; 1000]%N
  ∧ process_file pystr sample_reader Some failing sample_model sample_file []
      fresh_world
    = ([], {| requests :=
                replicate 3
                  (analyze_request sample_model
                     (py "Hello Ravi" ++ NL ++ py "Goodbye" ++ NL));
              slept := [2000; 2000; 2000; 1000]%N |}).
Proof.
  destruct (retry_at_most_three_attempts sample_reader Some flaky sample_model
              sample_file [] fresh_world) as (_ & Hrun & _).
  destruct (Hrun eq_refl) as (_ & _ & Hthird & _).
  specialize (Hthird (record_of (pad (map strip (split SEP (strip ten_segments)))))
                eq_refl eq_refl).
  rewrite Hthird by reflexivity.
  destruct (retry_at_most_three_attempts sample_reader Some failing sample_model
              sample_file [] fresh_world) as (_ & Hfail & _).
  destruct (Hfail eq_refl) as (_ & _ & _ & Hnone).
  rewrite (Hnone eq_refl eq_refl eq_refl).
  split_and!; reflexivity.
Defined.

(** * Further properties *)

(** ** More on stripping *)

Lemma forallb_isspace_reverse (sp : pystr) :
  forallb isspace sp = true → forallb isspace (reverse sp) = true.
Proof.
  rewrite !forallb_forall. intros Hsp x Hx. apply Hsp.
  apply list_elem_of_In. apply list_elem_of_In in Hx.
  by rewrite elem_of_reverse in Hx.
Qed.

Lemma lstrip_blank (sp : pystr) : forallb isspace sp = true → lstrip sp = [].
Proof.
  intros Hsp. rewrite <- (app_nil_r sp). by rewrite lstrip_spaces.
Qed.

Lemma lstrip_idem (s : pystr) : lstrip (lstrip s) = lstrip s.
Proof.
  induction s as [|a s IH]; simpl; [done|].
  destruct (isspace a) eqn:Ha; [done|]. simpl. by rewrite Ha.
Qed.

Lemma lstrip_app_stop (f r : pystr) c :
  isspace c = false → lstrip (f ++ c :: r) = lstrip f ++ c :: r.
Proof.
  intros Hc. induction f as [|a f IH]; simpl.
  - by rewrite Hc.
  - by destruct (isspace a).
Qed.

Lemma rstrip_spaces (s sp : pystr) :
  forallb isspace sp = true → rstrip (s ++ sp) = rstrip s.
Proof.
  intros Hsp. unfold rstrip.
  by rewrite reverse_app, lstrip_spaces by by apply forallb_isspace_reverse.
Qed.

Lemma rstrip_app_stop (r f : pystr) c :
  isspace c = false → rstrip (r ++ c :: f) = r ++ c :: rstrip f.
Proof.
  intros Hc. unfold rstrip.
  rewrite reverse_app, reverse_cons, <- app_assoc. simpl.
  rewrite lstrip_app_stop by done.
  by rewrite reverse_app, reverse_cons, !reverse_involutive, <- app_assoc.
Qed.

Lemma strip_spaces_l (sp s : pystr) :
  forallb isspace sp = true → strip (sp ++ s) = strip s.
Proof. intros Hsp. unfold strip. by rewrite lstrip_spaces. Qed.

Lemma strip_spaces_r (s sp : pystr) :
  forallb isspace sp = true → strip (s ++ sp) = strip s.
Proof.
  intros Hsp. unfold strip.
  destruct (lstrip s) as [|c t] eqn:Hs.
  - apply lstrip_all_space in Hs.
    rewrite lstrip_spaces by done. by rewrite lstrip_blank.
  - rewrite lstrip_app_nonempty by by rewrite Hs.
    rewrite Hs. by apply rstrip_spaces.
Qed.

Lemma strip_lstrip (s : pystr) : strip (lstrip s) = strip s.
Proof. unfold strip. by rewrite lstrip_idem. Qed.

Lemma strip_rstrip (s : pystr) : strip (rstrip s) = strip s.
Proof.
  destruct (rstrip_split s) as (sp & Hs & Hsp).
  rewrite Hs at 2. by rewrite strip_spaces_r.
Qed.

Lemma strip_idem (s : pystr) : strip (strip s) = strip s.
Proof. unfold strip at 2. by rewrite strip_rstrip, strip_lstrip. Qed.

Lemma lstrip_elem (s : pystr) c : c ∈ lstrip s → c ∈ s.
Proof.
  destruct (lstrip_split s) as (sp & Hs & _). intros Hc.
  rewrite Hs. apply elem_of_app. by right.
Qed.

Lemma rstrip_elem (s : pystr) c : c ∈ rstrip s → c ∈ s.
Proof.
  destruct (rstrip_split s) as (sp & Hs & _). intros Hc.
  rewrite Hs. apply elem_of_app. by left.
Qed.

Lemma strip_elem (s : pystr) c : c ∈ strip s → c ∈ s.
Proof. intros Hc. by apply lstrip_elem, rstrip_elem. Qed.

(** ** More on splitting *)

Lemma split_scan_skip (sep : pystr) k cur (s : pystr) :
  k ≤ length s → split_scan sep k cur s = split_scan sep 0 cur (drop k s).
Proof.
  revert k. induction s as [|c t IH]; intros k Hk.
  - simpl in Hk. by replace k with 0 by lia.
  - destruct k as [|k]; [done|]. simpl in Hk. cbn [split_scan drop].
    apply IH. lia.
Qed.

Lemma startswith_refl_app (p s : pystr) : startswith p (p ++ s) = true.
Proof. induction p as [|a p IH]; simpl; [done|]. by rewrite N.eqb_refl. Qed.

(** A separator found at the front ends the current segment. *)
Lemma split_scan_match (sep : pystr) cur (s : pystr) :
  sep ≠ [] →
  split_scan sep 0 cur (sep ++ s) = reverse cur :: split_scan sep 0 [] s.
Proof.
  intros Hsep. destruct sep as [|c sep]; [done|].
  rewrite <- app_comm_cons. cbn [split_scan].
  rewrite app_comm_cons, startswith_refl_app. f_equal.
  rewrite split_scan_skip by (rewrite length_app; simpl; lia).
  simpl. by rewrite Nat.sub_0_r, drop_app_length.
Qed.

(** Characters other than the first of the separator are passed over. *)
Lemma split_scan_pass (c : N) (sep : pystr) cur (a s : pystr) :
  c ∉ a →
  split_scan (c :: sep) 0 cur (a ++ s) = split_scan (c :: sep) 0 (reverse a ++ cur) s.
Proof.
  revert cur. induction a as [|x a IH]; intros cur Hc; [done|].
  apply not_elem_of_cons in Hc as [Hx Ha].
  rewrite <- app_comm_cons. cbn [split_scan startswith].
  destruct (N.eqb_spec c x) as [->|_]; [done|]. cbn [andb].
  rewrite IH by done. by rewrite reverse_cons, <- app_assoc.
Qed.

Lemma join_snoc (sep : pystr) (xs : list pystr) (l : pystr) :
  xs ≠ [] → join sep (xs ++ [l]) = join sep xs ++ sep ++ l.
Proof.
  induction xs as [|x xs IH]; [done|]. intros _.
  destruct xs as [|y xs]; [done|].
  change (join sep ((x :: y :: xs) ++ [l]))
    with (x ++ sep ++ join sep ((y :: xs) ++ [l])).
  rewrite IH by done.
  change (join sep (x :: y :: xs)) with (x ++ sep ++ join sep (y :: xs)).
  by rewrite <- !app_assoc.
Qed.

(** Round trip: fields that do not hold the first character of the separator
    are recovered from their joined form. *)
Lemma split_join (c : N) (sep : pystr) (fields : list pystr) :
  fields ≠ [] → Forall (λ f, c ∉ f) fields →
  split (c :: sep) (join (c :: sep) fields) = fields.
Proof.
  intros Hne Hfields. unfold split.
  induction fields as [|f fields IH]; [done|].
  apply Forall_cons in Hfields as [Hf Hfields].
  destruct fields as [|g fields].
  - simpl. rewrite <- (app_nil_r f) at 1. rewrite split_scan_pass by done.
    simpl. by rewrite app_nil_r, reverse_involutive.
  - change (join (c :: sep) (f :: g :: fields))
      with (f ++ (c :: sep) ++ join (c :: sep) (g :: fields)).
    rewrite split_scan_pass by done.
    rewrite split_scan_match by done.
    by rewrite app_nil_r, reverse_involutive, IH.
Qed.

(** ** Call Analyzer: decoding a reply *)

Lemma strip_join (f l : pystr) (init : list pystr) :
  strip (join SEP (f :: init ++ [l])) = join SEP (lstrip f :: init ++ [rstrip l]).
Proof.
  rewrite !app_comm_cons, !join_snoc by done. unfold strip.
  assert (lstrip (join SEP (f :: init) ++ SEP ++ l)
          = join SEP (lstrip f :: init) ++ SEP ++ l) as ->.
  { destruct init as [|g init].
    - simpl. change (SEP ++ l) with (35%N :: 35%N :: 35%N :: l).
      by rewrite lstrip_app_stop.
    - change (join SEP (f :: g :: init)) with (f ++ SEP ++ join SEP (g :: init)).
      change (join SEP (lstrip f :: g :: init))
        with (lstrip f ++ SEP ++ join SEP (g :: init)).
      rewrite <- !app_assoc.
      change (SEP ++ join SEP (g :: init) ++ SEP ++ l)
        with (35%N :: [35%N; 35%N] ++ join SEP (g :: init) ++ SEP ++ l).
      by rewrite lstrip_app_stop. }
  change (SEP ++ l) with ([35%N; 35%N] ++ 35%N :: l).
  change (SEP ++ rstrip l) with ([35%N; 35%N] ++ 35%N :: rstrip l).
  rewrite !app_assoc. by rewrite rstrip_app_stop.
Qed.

(** The segments of a joined reply are, once stripped, the stripped fields. *)
Lemma segments_of_joined (fields : list pystr) :
  fields ≠ [] → Forall (λ f, 35%N ∉ f) fields →
  map strip (split SEP (strip (join SEP fields))) = map strip fields.
Proof.
  intros Hne Hfields. destruct fields as [|f rest]; [done|].
  apply Forall_cons in Hfields as [Hf Hrest].
  destruct (decide (rest = [])) as [->|Hrest_ne].
  - assert (split SEP (strip (join SEP [f])) = [strip f]) as ->.
    { apply (split_join 35 [35%N; 35%N] [strip f]); [done|].
      apply Forall_singleton. intros Hc. by apply Hf, strip_elem. }
    simpl. by rewrite strip_idem.
  - destruct (exists_last Hrest_ne) as (init & l & ->).
    apply Forall_app in Hrest as [Hinit Hl].
    rewrite Forall_singleton in Hl.
    rewrite strip_join. change SEP with (35%N :: [35%N; 35%N]).
    rewrite (split_join 35 [35%N; 35%N]); [|done|].
    + simpl. rewrite !map_app. simpl. by rewrite strip_lstrip, strip_rstrip.
    + apply Forall_cons. split; [intros Hc; by apply Hf, lstrip_elem|].
      apply Forall_app. split; [done|].
      apply Forall_singleton. intros Hc. by apply Hl, rstrip_elem.
Qed.

(** X1. Whatever text the service returns, the analyzer accepts it: it
    returns a mapping, truthy for the retry loop, whose key at position [i]
    holds the stripped [i]-th segment of the stripped reply, or "-" when the
    reply has no such segment.  This covers replies of exactly 17 segments. *)
Theorem every_text_reply_is_accepted
    (backend : list Request → Request → GenResult) (model : GenerativeModel)
    (text : pystr) (w : World) (raw : pystr) :
  backend (requests w) (analyze_request model text) = Response (Some raw) →
  ∃ d : gmap pystr pystr,
    (analyze_call backend model text w).1 = Some d
    ∧ truthy_dict (Some d) = true
    ∧ ∀ i key, FIELD_KEYS !! i = Some key →
        d !! key
        = Some (default PLACEHOLDER (strip <$> split SEP (strip raw) !! i)).
Proof.
  intros Hreply.
  assert ((analyze_call backend model text w).1
          = Some (record_of (pad (map strip (split SEP (strip raw)))))) as Hd.
  { rewrite analyze_call_run, Hreply. simpl. by rewrite parse_reply_spec. }
  eexists. split; [exact Hd|]. split.
  - by apply (analyze_call_truthy backend model text w).
  - intros i key Hkey.
    pose proof (pad_length (map strip (split SEP (strip raw)))) as Hlen.
    rewrite (record_of_lookup _ i) by done.
    rewrite pad_lookup, list_lookup_fmap; [done|].
    apply lookup_lt_Some in Hkey. by rewrite FIELD_KEYS_length in Hkey.
Qed.

(** X2. Whitespace before and after the reply does not matter: two replies
    that differ only by it give the same mapping. *)
Theorem surrounding_whitespace_is_ignored
    (backend backend' : list Request → Request → GenResult)
    (model model' : GenerativeModel) (text text' : pystr) (w w' : World)
    (raw sp sp' : pystr) :
  forallb isspace sp = true → forallb isspace sp' = true →
  backend (requests w) (analyze_request model text) = Response (Some raw) →
  backend' (requests w') (analyze_request model' text')
  = Response (Some (sp ++ raw ++ sp')) →
  (analyze_call backend' model' text' w').1 = (analyze_call backend model text w).1.
Proof.
  intros Hsp Hsp' Hreply Hreply'.
  rewrite !analyze_call_run, Hreply, Hreply'. simpl. unfold parse_reply.
  by rewrite strip_spaces_l, strip_spaces_r.
Qed.

(** X3. A reply in the requested format is decoded field by field: when
    the fields hold no '#', the reply made of the fields joined by "###"
    gives the mapping of the stripped fields, cut to the first 17 and
    completed with "-". *)
Theorem formatted_reply_is_decoded
    (backend : list Request → Request → GenResult) (model : GenerativeModel)
    (text : pystr) (w : World) (fields : list pystr) :
  fields ≠ [] →
  Forall (λ f, 35%N ∉ f) fields →
  backend (requests w) (analyze_request model text)
  = Response (Some (join SEP fields)) →
  ∃ d : gmap pystr pystr,
    (analyze_call backend model text w).1 = Some d
    ∧ ∀ i key, FIELD_KEYS !! i = Some key →
        d !! key = Some (default PLACEHOLDER (strip <$> fields !! i)).
Proof.
  intros Hne Hfields Hreply.
  exists (record_of (pad (map strip fields))). split.
  - rewrite analyze_call_run, Hreply. simpl.
    by rewrite parse_reply_spec, segments_of_joined.
  - intros i key Hkey.
    pose proof (pad_length (map strip fields)) as Hlen.
    rewrite (record_of_lookup _ i) by done.
    rewrite pad_lookup, list_lookup_fmap; [done|].
    apply lookup_lt_Some in Hkey. by rewrite FIELD_KEYS_length in Hkey.
Qed.

(** X4. Only the first 30000 characters of a transcript reach the service:
    the prompt is the fixed text followed by at most that many characters,
    and what comes after them changes neither the request nor the result. *)
Theorem transcript_is_truncated
    (backend : list Request → Request → GenResult) (model : GenerativeModel)
    (text extra : pystr) (w : World) :
  N.of_nat MAX_TRANSCRIPT_CHARS = 30000%N
  ∧ length (req_prompt (analyze_request model text))
    ≤ length ANALYZE_PROMPT + MAX_TRANSCRIPT_CHARS
  ∧ requests (analyze_call backend model text w).2
    = requests w ++ [analyze_request model text]
  ∧ (MAX_TRANSCRIPT_CHARS ≤ length text →
     analyze_call backend model (text ++ extra) w
     = analyze_call backend model text w).
Proof.
  split_and!.
  - reflexivity.
  - unfold analyze_request. cbn [req_prompt].
    rewrite length_app, length_take. lia.
  - apply analyze_call_requests.
  - intros Hlen. rewrite !analyze_call_run.
    assert (analyze_request model (text ++ extra) = analyze_request model text) as ->.
    { unfold analyze_request. by rewrite take_app_le. }
    done.
Qed.

Lemma every_text_reply_is_accepted_witness :
  ∃ d : gmap pystr pystr,
    (analyze_call (replying seventeen_segments) sample_model (py "call")
       fresh_world).1 = Some d
    ∧ d !! py "CSM Name" = Some (py "a")
    ∧ d !! py "Pitch Flow Adherence" = Some (py "q").
Proof.
  destruct (every_text_reply_is_accepted (replying seventeen_segments)
              sample_model (py "call") fresh_world seventeen_segments)
    as (d & Hd & _ & Hkeys); [reflexivity|].
  exists d. split_and!; [exact Hd | |].
  - exact (Hkeys 0 (py "CSM Name") eq_refl).
  - exact (Hkeys 16 (py "Pitch Flow Adherence") eq_refl).
Defined.

Lemma surrounding_whitespace_is_ignored_witness :
  (analyze_call (replying ([32; 10]%N ++ ten_segments ++ [9; 160]%N))
     sample_model (py "call") fresh_world).1
  = (analyze_call (replying ten_segments) sample_model (py "other call")
       fresh_world).1.
Proof.
  apply (surrounding_whitespace_is_ignored (replying ten_segments)
           (replying ([32; 10]%N ++ ten_segments ++ [9; 160]%N))
           sample_model sample_model (py "other call") (py "call")
           fresh_world fresh_world ten_segments [32; 10]%N [9; 160]%N);
    reflexivity.
Defined.

Lemma formatted_reply_is_decoded_witness :
  ∃ d : gmap pystr pystr,
    (analyze_call (replying (join SEP three_fields)) sample_model (py "call")
       fresh_world).1 = Some d
    ∧ d !! py "CSM Name" = Some (py "Asha")
    ∧ d !! py "Lead Intent" = Some (py "Pure Investor")
    ∧ d !! py "⚠️ Brand Trust" = Some (py "-").
Proof.
  destruct (formatted_reply_is_decoded (replying (join SEP three_fields))
              sample_model (py "call") fresh_world three_fields)
    as (d & Hd & Hkeys); [discriminate | | reflexivity |].
  { apply (bool_decide_unpack _). vm_compute. exact I. }
  exists d. split_and!; [exact Hd | | |].
  - exact (Hkeys 0 (py "CSM Name") eq_refl).
  - exact (Hkeys 2 (py "Lead Intent") eq_refl).
  - exact (Hkeys 3 (py "⚠️ Brand Trust") eq_refl).
Defined.

Lemma transcript_is_truncated_witness :
  analyze_call failing sample_model (long_transcript ++ py "never sent") fresh_world
  = analyze_call failing sample_model long_transcript fresh_world.
Proof.
  apply (transcript_is_truncated failing sample_model long_transcript
           (py "never sent") fresh_world).
  unfold long_transcript. by rewrite length_replicate.
Defined.

(** ** Model Selector: the choice is an available model *)

Lemma preferred_elem unicode_lower (all_models : list pystr) (m : pystr) :
  preferred unicode_lower all_models = Some m → m ∈ all_models ∧ m ≠ [].
Proof.
  unfold preferred.
  destruct (List.find (is_flash unicode_lower) all_models) as [m1|] eqn:Hflash.
  { intros [= <-]. apply find_some in Hflash as [Hin Hm].
    apply is_flash_truthy in Hm. split; [by apply list_elem_of_In|].
    by destruct m1. }
  destruct (List.find (is_pro unicode_lower) all_models) as [m2|] eqn:Hpro.
  { intros [= <-]. apply find_some in Hpro as [Hin Hm].
    apply is_pro_truthy in Hm. split; [by apply list_elem_of_In|].
    by destruct m2. }
  destruct all_models as [|m3 rest]; [done|].
  destruct m3 as [|c m3]; [done|]. intros [= <-].
  split; [apply elem_of_cons; by left | done].
Qed.

Lemma contains_slash_prefixed (model_name : pystr) :
  contains (py "/") (py "models/" ++ model_name) = true.
Proof. reflexivity. Qed.

(** X5. The handle [get_gemini_model] returns stands for a model of the
    list the API gave, one that supports content generation and whose name
    is not empty: a model without 'generateContent' is never chosen, whatever
    its name.  The handle's identifier is that name, as the API lists it when
    it holds a '/', and with 'models/' put before it by the client when it
    holds none; either way the identifier holds a '/'. *)
Theorem selected_model_is_listed (unicode_lower : pystr → pystr)
    (list_models : pystr → option (list ModelInfo)) (api_key : pystr)
    (handle : GenerativeModel) :
  get_gemini_model unicode_lower list_models api_key = Some handle →
  ∃ models m,
    list_models api_key = Some models
    ∧ m ∈ models
    ∧ py "generateContent" ∈ supported_generation_methods m
    ∧ name m ≠ []
    ∧ (contains (py "/") (name m) = true → model_name handle = name m)
    ∧ (contains (py "/") (name m) = false →
       model_name handle = py "models/" ++ name m)
    ∧ contains (py "/") (model_name handle) = true.
Proof.
  unfold get_gemini_model.
  destruct (list_models api_key) as [models|]; [|done].
  destruct (select_model _ _) as [chosen|] eqn:Hsel; [|done].
  intros [= <-]. rewrite select_model_preferred in Hsel.
  apply preferred_elem in Hsel as [Hin Hne].
  apply list_elem_of_fmap in Hin as (m & -> & Hm).
  apply list_elem_of_filter in Hm as [Hgen Hm].
  exists models, m. unfold new_GenerativeModel. cbn [model_name].
  destruct (contains (py "/") (name m)) eqn:Hslash.
  - by split_and!.
  - split_and!; done || apply contains_slash_prefixed.
Qed.

Lemma selected_model_is_listed_witness :
  ∃ m, m ∈ sample_models
       ∧ py "generateContent" ∈ supported_generation_methods m
       ∧ model_name (new_GenerativeModel (py "models/gemini-1.5-flash-001"))
         = name m.
Proof.
  destruct (selected_model_is_listed (λ s, s) (λ _, Some sample_models) (py "key")
              (new_GenerativeModel (py "models/gemini-1.5-flash-001")))
    as (models & m & Hlist & Hm & Hgen & _ & Hname & _ & Hslash);
    [vm_compute; reflexivity|].
  injection Hlist as <-. exists m. split_and!; [exact Hm | exact Hgen |].
  apply Hname. destruct (contains (py "/") (name m)) eqn:Hc; [done|].
  exfalso. revert Hc.
  apply list_elem_of_In in Hm. simpl in Hm.
  destruct Hm as [<-|[<-|[<-|[]]]]; vm_compute; discriminate.
Defined.

(** ** Orchestrator: the loop over the files *)

Lemma bind_run {A B} (m : M A) (k : A → M B) (w : World) :
  bind m k w = k (m w).1 (m w).2.
Proof. unfold bind. by destruct (m w). Qed.

Lemma analyze_call_slept backend model text w :
  slept (analyze_call backend model text w).2 = slept w.
Proof. by rewrite analyze_call_run. Qed.

Lemma total_pause_app (w w' : World) (pauses : list N) :
  slept w' = slept w ++ pauses →
  total_pause w' = (total_pause w + foldr N.add 0 pauses)%N.
Proof.
  unfold total_pause. intros ->.
  induction (slept w) as [|p l IH]; simpl; [done|]. rewrite IH. lia.
Qed.

Lemma sum_replicate (n : nat) (p : N) :
  foldr N.add 0%N (replicate n p) = (N.of_nat n * p)%N.
Proof. induction n as [|n IH]; [done|]. cbn [replicate foldr]. rewrite IH. lia. Qed.

Lemma RESULT_COLUMNS_NoDup : NoDup RESULT_COLUMNS.
Proof. apply (bool_decide_unpack _). vm_compute. exact I. Qed.

Lemma call_record_insert (name : pystr) (d : gmap pystr pystr) :
  dom d = list_to_set FIELD_KEYS →
  call_record name (<[py "File Name" := name]> d).
Proof.
  intros Hdom. split; [|apply lookup_insert_eq].
  rewrite dom_insert_L, Hdom. unfold RESULT_COLUMNS.
  rewrite list_to_set_app_L.
  generalize (list_to_set (C:=gset pystr) FIELD_KEYS). intros fields.
  generalize (py "File Name"). intros k.
  rewrite list_to_set_cons, list_to_set_nil, (right_id_L ∅ (∪)).
  apply (comm_L (∪)).
Qed.

Lemma call_record_size (name : pystr) (d : gmap pystr pystr) :
  call_record name d → size d = 18.
Proof.
  intros [Hdom _]. rewrite <- size_dom, Hdom.
  by rewrite size_list_to_set by apply RESULT_COLUMNS_NoDup.
Qed.

Section RunFacts.

Context {Page : Type}.
Variable PdfReader : list byte → option (list Page).
Variable extract_text : Page → option pystr.
Variable backend : list Request → Request → GenResult.

(** The text the orchestrator gets from a file. *)
Let transcript (f : UploadedFile) : pystr :=
  extract_text_from_pdf Page PdfReader extract_text (getvalue f).

(** What a run of the retry loop does to the results and to the world. *)
Lemma retry_loop_effect (model : GenerativeModel) (text name : pystr)
    (attempts : list nat) (results : list (gmap pystr pystr)) (w : World) :
  ∃ (new : list (gmap pystr pystr)) (k : nat),
    (retry_loop backend model text name attempts results w).1 = results ++ new
    ∧ requests (retry_loop backend model text name attempts results w).2
      = requests w ++ replicate k (analyze_request model text)
    ∧ slept (retry_loop backend model text name attempts results w).2
      = slept w ++ replicate (k - length new) 2000%N
    ∧ k ≤ length attempts
    ∧ length new ≤ 1
    ∧ length new ≤ k
    ∧ Forall (call_record name) new.
Proof.
  revert w. induction attempts as [|a attempts IH]; intros w.
  - exists [], 0. simpl. rewrite !app_nil_r.
    split_and!; try done; lia.
  - rewrite retry_loop_turn.
    destruct (analyze_call backend model text w).1 as [d|] eqn:Hcall.
    + exists [<[py "File Name" := name]> d], 1. cbn [fst snd length].
      rewrite analyze_call_requests, analyze_call_slept.
      split_and!; try done; [by rewrite app_nil_r | lia |].
      apply Forall_singleton, call_record_insert.
      by apply (analyze_call_complete backend model text w).
    + destruct (IH (sleep 2000 (analyze_call backend model text w).2).2)
        as (new & k & Hres & Hreq & Hslept & Hk & Hnew & Hle & Hrec).
      exists new, (S k). rewrite Hres, Hreq, Hslept.
      rewrite sleep_requests, analyze_call_requests. cbn [sleep snd slept].
      rewrite analyze_call_slept.
      split_and!; try done; [| |simpl; lia|lia].
      * by rewrite <- app_assoc.
      * rewrite <- app_assoc. f_equal.
        replace (S k - length new) with (S (k - length new)) by lia. done.
Qed.

(** What one file does to the results and to the world. *)
Lemma process_file_effect (model : GenerativeModel) (f : UploadedFile)
    (results : list (gmap pystr pystr)) (w : World) :
  ∃ (new : list (gmap pystr pystr)) (k : nat),
    (process_file Page PdfReader extract_text backend model f results w).1
    = results ++ new
    ∧ requests (process_file Page PdfReader extract_text backend model f results w).2
      = requests w ++ replicate k (analyze_request model (transcript f))
    ∧ slept (process_file Page PdfReader extract_text backend model f results w).2
      = slept w ++ replicate (k - length new) 2000%N ++ [1000%N]
    ∧ k ≤ 3
    ∧ length new ≤ 1
    ∧ length new ≤ k
    ∧ Forall (call_record (file_name f)) new
    ∧ (truthy (strip (transcript f)) = false → k = 0).
Proof.
  unfold process_file. fold (transcript f).
  destruct (truthy (strip (transcript f))) eqn:Htext.
  - destruct (retry_loop_effect model (transcript f) (file_name f) (seq 0 3)
                results w) as (new & k & Hres & Hreq & Hslept & Hk & Hnew & Hle & Hrec).
    exists new, k. rewrite !bind_run. cbn [sleep ret fst snd requests slept].
    rewrite Hres, Hreq, Hslept.
    split_and!; try done. by rewrite <- app_assoc.
  - exists [], 0. rewrite !bind_run. cbn [sleep ret fst snd requests slept].
    rewrite !app_nil_r. split_and!; try done; simpl; lia.
Qed.

Lemma sum_app (l k : list N) :
  foldr N.add 0%N (l ++ k) = (foldr N.add 0 l + foldr N.add 0 k)%N.
Proof. induction l as [|p l IH]; simpl; [done|]. rewrite IH. lia. Qed.

(** What the loop over the files does to the results and to the world. *)
Lemma process_files_effect (model : GenerativeModel) (files : list UploadedFile)
    (results : list (gmap pystr pystr)) (w : World) :
  ∃ (new : list (gmap pystr pystr)) (reqs : list Request),
    (process_files Page PdfReader extract_text backend model files results w).1
    = results ++ new
    ∧ requests
        (process_files Page PdfReader extract_text backend model files results w).2
      = requests w ++ reqs
    ∧ total_pause
        (process_files Page PdfReader extract_text backend model files results w).2
      = (total_pause w + 1000 * N.of_nat (length files)
         + 2000 * N.of_nat (length reqs - length new))%N
    ∧ length new ≤ length reqs
    ∧ length reqs ≤ 3 * length files
    ∧ length new ≤ length files
    ∧ (λ d : gmap pystr pystr, d !! py "File Name") <$> new
      `sublist_of` (λ f, Some (file_name f)) <$> files
    ∧ Forall (λ d, ∃ f, f ∈ files ∧ call_record (file_name f) d) new
    ∧ Forall (λ r, ∃ f, f ∈ files ∧ r = analyze_request model (transcript f)) reqs.
Proof.
  revert results w. induction files as [|f files IH]; intros results w.
  - exists [], []. cbn [process_files ret fst snd length].
    rewrite !app_nil_r. split_and!; try done; lia.
  - cbn [process_files]. rewrite bind_run.
    destruct (process_file_effect model f results w)
      as (new1 & k & Hres & Hreq & Hslept & Hk & Hnew & Hle & Hrec & _).
    destruct (IH (process_file Page PdfReader extract_text backend model f results w).1
                 (process_file Page PdfReader extract_text backend model f results w).2)
      as (new2 & reqs2 & Hres2 & Hreq2 & Hpause2 & Hle2 & Hreqs2 & Hnew2 & Hsub2
          & Hrec2 & Hsent2).
    exists (new1 ++ new2), (replicate k (analyze_request model (transcript f)) ++ reqs2).
    rewrite Hres2, Hreq2, Hpause2, Hres, Hreq.
    rewrite (total_pause_app w _ _ Hslept), sum_app, sum_replicate.
    rewrite !length_app, length_replicate. cbn [length foldr].
    split_and!; try lia.
    + by rewrite <- app_assoc.
    + by rewrite <- app_assoc.
    + rewrite fmap_app. cbn [fmap list_fmap].
      destruct new1 as [|d [|d' new1]]; [| |simpl in Hnew; lia].
      * by apply sublist_cons.
      * apply Forall_singleton in Hrec as [_ Hname].
        cbn [fmap list_fmap app]. rewrite Hname. by apply sublist_skip.
    + apply Forall_app. split.
      * eapply Forall_impl; [exact Hrec|]. intros d Hd.
        exists f. split; [apply elem_of_cons; by left | done].
      * eapply Forall_impl; [exact Hrec2|]. intros d (f' & Hf' & Hd).
        exists f'. split; [apply elem_of_cons; by right | done].
    + apply Forall_app. split.
      * apply Forall_replicate. exists f. split; [apply elem_of_cons; by left | done].
      * eapply Forall_impl; [exact Hsent2|]. intros r (f' & Hf' & Hr).
        exists f'. split; [apply elem_of_cons; by right | done].
Qed.

(** X6. The loop over the files only appends to the results, at most one
    record per file and in upload order; every record it appends has the 17
    fields and the name of one of the files, 18 keys in all. *)
Theorem results_grow_in_upload_order (model : GenerativeModel)
    (files : list UploadedFile) (results : list (gmap pystr pystr)) (w : World) :
  ∃ new : list (gmap pystr pystr),
    (process_files Page PdfReader extract_text backend model files results w).1
    = results ++ new
    ∧ length new ≤ length files
    ∧ (λ d : gmap pystr pystr, d !! py "File Name") <$> new
      `sublist_of` (λ f, Some (file_name f)) <$> files
    ∧ Forall (λ d, dom d = list_to_set FIELD_KEYS ∪ {[py "File Name"]}
                   ∧ size d = 18
                   ∧ ∃ f, f ∈ files ∧ d !! py "File Name" = Some (file_name f))
        new.
Proof.
  destruct (process_files_effect model files results w)
    as (new & reqs & Hres & _ & _ & _ & _ & Hnew & Hsub & Hrec & _).
  exists new. split_and!; try done.
  eapply Forall_impl; [exact Hrec|]. intros d (f & Hf & Hd).
  split_and!.
  - destruct Hd as [-> _]. unfold RESULT_COLUMNS.
    by rewrite list_to_set_app_L, list_to_set_cons, list_to_set_nil,
      (right_id_L ∅ (∪)).
  - by apply (call_record_size (file_name f)).
  - exists f. split; [done|]. by destruct Hd.
Qed.

(** X7. The cost of the loop over [n] files: at most [3 n] requests are
    sent, each appended record accounts for one of them, and the pauses add
    up to one second per file plus two seconds per request that gave no
    record. *)
Theorem analysis_cost_is_bounded (model : GenerativeModel)
    (files : list UploadedFile) (results : list (gmap pystr pystr)) (w : World) :
  let out :=
    process_files Page PdfReader extract_text backend model files results w in
  let sent := length (requests out.2) - length (requests w) in
  let appended := length out.1 - length results in
  requests w `prefix_of` requests out.2
  ∧ appended ≤ sent
  ∧ sent ≤ 3 * length files
  ∧ total_pause out.2
    = (total_pause w + 1000 * N.of_nat (length files)
       + 2000 * N.of_nat (sent - appended))%N.
Proof.
  intros out sent appended. subst out sent appended.
  destruct (process_files_effect model files results w)
    as (new & reqs & Hres & Hreq & Hpause & Hle & Hreqs & _).
  rewrite Hres, Hreq, Hpause, !length_app.
  split_and!; [by eexists | lia | lia |].
  do 3 f_equal. lia.
Qed.

End RunFacts.

(** ** Orchestrator: transcripts without text *)

Lemma strip_blank (s : pystr) : forallb isspace s = true → strip s = [].
Proof. intros Hs. unfold strip. by rewrite lstrip_blank. Qed.

Lemma blank_pages (texts : list pystr) :
  Forall (λ t, forallb isspace t = true) texts →
  forallb isspace (concat (map (λ t, t ++ NL) texts)) = true.
Proof.
  induction 1 as [|t texts Ht _ IH]; [done|].
  simpl. rewrite !forallb_app, Ht, IH. done.
Qed.

Section SkipFacts.

Context {Page : Type}.
Variable PdfReader : list byte → option (list Page).
Variable extract_text : Page → option pystr.
Variable backend : list Request → Request → GenResult.

(** X8. A file that PyPDF2 cannot read, or one whose pages hold nothing but
    whitespace (a scanned document), costs no request: the results are left
    as they are and only the one-second pause is taken. *)
Theorem file_without_text_is_skipped (model : GenerativeModel)
    (uploaded_file : UploadedFile) (results : list (gmap pystr pystr)) (w : World) :
  (PdfReader (getvalue uploaded_file) = None
   ∨ (∃ pages page, PdfReader (getvalue uploaded_file) = Some pages
                    ∧ page ∈ pages ∧ extract_text page = None)
   ∨ (∃ pages texts, PdfReader (getvalue uploaded_file) = Some pages
                     ∧ map extract_text pages = map Some texts
                     ∧ Forall (λ t, forallb isspace t = true) texts)) →
  process_file Page PdfReader extract_text backend model uploaded_file results w
  = (results, {| requests := requests w; slept := slept w ++ [1000%N] |}).
Proof.
  intros Hfile.
  assert (strip (extract_text_from_pdf Page PdfReader extract_text
                   (getvalue uploaded_file)) = []) as Hblank.
  { unfold extract_text_from_pdf.
    destruct Hfile as [-> | [(pages & page & -> & Hin & Hfail)
                            | (pages & texts & -> & Hmap & Htexts)]]; simpl.
    - done.
    - by rewrite (extract_loop_fails extract_text pages page).
    - rewrite (extract_loop_succeeds extract_text pages texts) by done.
      simpl. by apply strip_blank, blank_pages. }
  unfold process_file. rewrite Hblank. cbn [truthy].
  by rewrite !bind_run.
Qed.

End SkipFacts.

Lemma file_without_text_is_skipped_witness :
  process_file pystr sample_reader Some (replying ten_segments) sample_model
    {| file_name := py "notes.txt"; getvalue := [x00]%byte |} [] fresh_world
  = ([], {| requests := []; slept := [1000%N] |})
  ∧ process_file pystr (λ _, Some [py "  "; [9; 160]%N; EMPTY]) Some
      (replying ten_segments) sample_model sample_file [] fresh_world
    = ([], {| requests := []; slept := [1000%N] |}).
Proof.
  split.
  - apply (file_without_text_is_skipped sample_reader Some (replying ten_segments)
             sample_model {| file_name := py "notes.txt"; getvalue := [x00]%byte |}
             [] fresh_world).
    left. reflexivity.
  - apply (file_without_text_is_skipped (λ _, Some [py "  "; [9; 160]%N; EMPTY])
             Some (replying ten_segments) sample_model sample_file [] fresh_world).
    right. right. exists [py "  "; [9; 160]%N; EMPTY], [py "  "; [9; 160]%N; EMPTY].
    split_and!; [reflexivity | reflexivity |].
    repeat constructor.
Defined.

(** ** Summary Generator: the data of one salesperson *)

Lemma index_of_lookup (x : pystr) (l : list pystr) i :
  index_of x l = Some i → l !! i = Some x.
Proof.
  revert i. induction l as [|y l IH]; intros i; simpl; [done|].
  case_bool_decide as Hxy.
  - intros [= <-]. by rewrite Hxy.
  - destruct (index_of x l) as [j|]; [|done]. intros [= <-]. by apply IH.
Qed.

Lemma keep_rows_mask {C} `{EqDecision C} (rs : list (list C)) i (v : C) :
  keep_rows rs (map (λ cell, bool_decide (cell = Some v)) (map (λ row, row !! i) rs))
  = filter (λ row, row !! i = Some v) rs.
Proof.
  induction rs as [|r rs IH]; [done|].
  cbn [map keep_rows]. rewrite filter_cons, IH.
  case_bool_decide as Hr; by destruct (decide (r !! i = Some v)).
Qed.

(** X9. The data sent for a salesperson are the rows of the frame whose
    'CSM Name' is that salesperson, in their order, reduced to the five
    columns of the prompt, in the order of the prompt. *)
Theorem summary_data_is_one_salesperson (df : DataFrame pystr)
    (csm_name : pystr) (csm_cols : DataFrame pystr) :
  csm_rows df csm_name = Some csm_cols →
  ∃ (i : nat) (idxs : list nat),
    columns df !! i = Some (py "CSM Name")
    ∧ Forall2 (λ label c, columns df !! c = Some label) SUMMARY_COLS idxs
    ∧ columns csm_cols = SUMMARY_COLS
    ∧ rows csm_cols
      = map (λ row, omap (λ c, row !! c) idxs)
          (filter (λ row, row !! i = Some csm_name) (rows df)).
Proof.
  unfold csm_rows, column, select_columns.
  destruct (index_of (py "CSM Name") (columns df)) as [i|] eqn:Hi; [|done].
  cbn [mbind option_bind filter_rows columns rows].
  destruct (mapM (λ c, index_of c (columns df)) SUMMARY_COLS) as [idxs|] eqn:Hidxs;
    [|done].
  cbn [mbind option_bind]. intros [= <-].
  exists i, idxs. cbn [columns rows]. split_and!; [| |done|].
  - by apply index_of_lookup.
  - apply mapM_Some in Hidxs. eapply Forall2_impl; [exact Hidxs|].
    intros label c Hc. by apply index_of_lookup.
  - by rewrite keep_rows_mask.
Qed.

Lemma summary_data_is_one_salesperson_witness :
  ∃ (i : nat) (idxs : list nat),
    columns sample_frame !! i = Some (py "CSM Name")
    ∧ rows asha_rows
      = map (λ row, omap (λ c, row !! c) idxs)
          (filter (λ row, row !! i = Some (py "Asha")) (rows sample_frame)).
Proof.
  destruct (summary_data_is_one_salesperson sample_frame (py "Asha") asha_rows)
    as (i & idxs & Hi & _ & _ & Hrows); [vm_compute; reflexivity|].
  exists i, idxs. split; [exact Hi | exact Hrows].
Defined.

(** ** The run: one summary per salesperson *)

Lemma unique_from_elem (seen l : list pystr) (x : pystr) :
  x ∈ unique_from seen l ↔ x ∈ l ∧ x ∉ seen.
Proof.
  revert seen. induction l as [|y l IH]; intros seen; simpl.
  - split; [by intros ?%elem_of_nil | by intros [?%elem_of_nil _]].
  - case_bool_decide as Hy.
    + rewrite IH. split.
      * intros [Hx Hs]. split; [apply elem_of_cons; by right | done].
      * intros [Hx Hs]. apply elem_of_cons in Hx as [->|Hx]; [done|done].
    + rewrite elem_of_cons, IH. split.
      * intros [->|[Hx Hs]].
        -- split; [apply elem_of_cons; by left | done].
        -- split; [apply elem_of_cons; by right|].
           intros Hseen. apply Hs, elem_of_cons. by right.
      * intros [Hx Hs]. apply elem_of_cons in Hx as [->|Hx]; [by left|].
        destruct (decide (x = y)) as [->|Hne]; [by left|]. right.
        split; [done|]. by intros [?|?]%elem_of_cons.
Qed.

Lemma unique_from_NoDup (seen l : list pystr) : NoDup (unique_from seen l).
Proof.
  revert seen. induction l as [|y l IH]; intros seen; simpl; [constructor|].
  case_bool_decide as Hy; [apply IH|].
  constructor; [|apply IH].
  rewrite unique_from_elem. intros [_ Hseen]. apply Hseen, elem_of_cons. by left.
Qed.

Lemma unique_from_sublist (seen l : list pystr) : unique_from seen l `sublist_of` l.
Proof.
  revert seen. induction l as [|y l IH]; intros seen; simpl; [constructor|].
  case_bool_decide; [by apply sublist_cons | by apply sublist_skip].
Qed.

(** [unique] keeps one copy of each value, in the order of the list. *)
Lemma unique_spec (l : list pystr) :
  NoDup (unique l) ∧ (∀ x, x ∈ unique l ↔ x ∈ l) ∧ unique l `sublist_of` l.
Proof.
  split_and!; [apply unique_from_NoDup | | apply unique_from_sublist].
  intros x. unfold unique. rewrite unique_from_elem.
  split; [by intros [? _] | intros ?; split; [done | by intros ?%elem_of_nil]].
Qed.

(** The frame of complete records has a row per record, cell by cell. *)
Lemma frame_of_results_complete (results : list (gmap pystr pystr)) :
  Forall (λ d, dom d = list_to_set RESULT_COLUMNS) results →
  ∃ rs : list (list pystr),
    frame_of_results results = Some {| columns := RESULT_COLUMNS; rows := rs |}
    ∧ Forall2 (λ (d : gmap pystr pystr) row,
                 Forall2 (λ k c, d !! k = Some c) RESULT_COLUMNS row) results rs.
Proof.
  intros Hres. unfold frame_of_results.
  destruct (mapM_is_Some_2
              (λ d : gmap pystr pystr, mapM (λ k, d !! k) RESULT_COLUMNS) results)
    as [rs Hrs].
  - eapply Forall_impl; [exact Hres|]. intros d Hd. apply mapM_is_Some_2.
    apply Forall_forall. intros k Hk. apply elem_of_dom. rewrite Hd.
    by apply elem_of_list_to_set.
  - exists rs. rewrite Hrs. split; [done|].
    apply mapM_Some in Hrs. eapply Forall2_impl; [exact Hrs|].
    intros d row Hrow. by apply mapM_Some in Hrow.
Qed.

Lemma unique_csms_complete (results : list (gmap pystr pystr))
    (rs : list (list pystr)) :
  Forall2 (λ (d : gmap pystr pystr) row,
             Forall2 (λ k c, d !! k = Some c) RESULT_COLUMNS row) results rs →
  ∃ names : list pystr,
    Forall2 (λ (d : gmap pystr pystr) n, d !! py "CSM Name" = Some n) results names
    ∧ unique_csms {| columns := RESULT_COLUMNS; rows := rs |} = Some (unique names).
Proof.
  intros Hrs. unfold unique_csms, column. cbn [columns rows].
  assert (index_of (py "CSM Name") RESULT_COLUMNS = Some 0) as -> by (vm_compute; done).
  cbn [mbind option_bind].
  assert (∃ names : list pystr,
            Forall2 (λ (d : gmap pystr pystr) n, d !! py "CSM Name" = Some n)
              results names
            ∧ map (λ row : list pystr, row !! 0) rs = map Some names)
    as (names & Hnames & ->).
  { induction Hrs as [|d row results rs Hrow _ (names & Hnames & IH)].
    - by exists [].
    - destruct (Forall2_lookup_l _ _ _ 0 (py "CSM Name") Hrow) as (c & Hc & Hd);
        [vm_compute; done|].
      exists (c :: names). split; [by constructor|].
      simpl. by rewrite Hc, IH. }
  exists names. split; [done|].
  assert (mapM id (map Some names) = Some names) as ->; [|done].
  apply mapM_Some. clear. induction names; by constructor.
Qed.

Lemma summary_for_default (json_loads : pystr → option value) (csm_name : pystr)
    (reply : GenResult) :
  summary_for json_loads csm_name reply
    (default (summary_sentinel csm_name)
       (reply_text reply ≫= λ t, json_loads (clean_reply t))).
Proof.
  split_and!.
  - intros t v -> Hv. simpl. by rewrite Hv.
  - intros t -> Hv. simpl. by rewrite Hv.
  - by intros [-> | ->].
Qed.

Section SummaryFacts.

Variable backend : list Request → Request → GenResult.
Variable to_csv : DataFrame pystr → pystr.
Variable json_loads : pystr → option value.

(** What the loop over the salespeople does: a value and a request for
    each, a pause of 1.5 s after each. *)
Lemma summaries_loop_effect (model : GenerativeModel) (df : DataFrame pystr)
    (csms : list pystr) (summaries : list value) (w : World) :
  Forall (λ c, c ∈ columns df) (py "CSM Name" :: SUMMARY_COLS) →
  ∃ (vs : list value) (reqs : list Request),
    (summaries_loop backend to_csv json_loads model df csms summaries w).1
    = Some (summaries ++ vs)
    ∧ requests (summaries_loop backend to_csv json_loads model df csms summaries w).2
      = requests w ++ reqs
    ∧ total_pause (summaries_loop backend to_csv json_loads model df csms summaries w).2
      = (total_pause w + 1500 * N.of_nat (length csms))%N
    ∧ Forall2 (λ csm v, v = summary_sentinel csm
                        ∨ ∃ t, json_loads (clean_reply t) = Some v) csms vs
    ∧ Forall2 (λ csm r, ∃ cols, csm_rows df csm = Some cols
                                ∧ r = summary_request model csm (to_csv cols))
        csms reqs
    ∧ (∀ i csm r v, csms !! i = Some csm → reqs !! i = Some r → vs !! i = Some v →
         summary_for json_loads csm (backend (requests w ++ take i reqs) r) v).
Proof.
  intros Hcols. revert summaries w.
  induction csms as [|csm csms IH]; intros summaries w.
  - exists [], []. cbn [summaries_loop ret fst snd length].
    rewrite !app_nil_r. split_and!; try done; try lia; constructor.
  - destruct (csm_rows_is_Some df csm Hcols) as [cols Hrows].
    cbn [summaries_loop]. rewrite bind_run.
    rewrite (generate_csm_summary_run backend to_csv json_loads model df csm w cols
               Hrows).
    cbn [fst snd]. rewrite bind_run. cbn [sleep fst snd].
    set (v := default (summary_sentinel csm) _).
    set (w1 := {| requests := _; slept := _ |}).
    destruct (IH (summaries ++ [v]) w1)
      as (vs & reqs & Hres & Hreq & Hpause & Hvs & Hreqs & Hsum).
    exists (v :: vs), (summary_request model csm (to_csv cols) :: reqs).
    rewrite Hres, Hreq, Hpause.
    split_and!.
    + by rewrite <- app_assoc.
    + subst w1. cbn [requests log_request]. by rewrite <- app_assoc.
    + rewrite (total_pause_app w w1 [1500%N]) by done. cbn [length foldr]. lia.
    + constructor; [|done]. subst v.
      destruct (reply_text _) as [t|]; simpl; [|by left].
      destruct (json_loads (clean_reply t)) as [v|] eqn:Hv; simpl; [|by left].
      right. by exists t.
    + constructor; [|done]. by exists cols.
    + intros [|i] csm' r' v' Hcsm Hr Hv; simpl in Hcsm, Hr, Hv.
      * injection Hcsm as <-. injection Hr as <-. injection Hv as <-.
        rewrite take_0, app_nil_r. subst v. apply summary_for_default.
      * cbn [take]. replace (requests w ++ summary_request model csm (to_csv cols)
                                          :: take i reqs)
          with (requests w1 ++ take i reqs)
          by (subst w1; cbn [requests log_request]; by rewrite <- app_assoc).
        by apply (Hsum i).
Qed.

End SummaryFacts.

Lemma RESULT_COLUMNS_enough :
  Forall (λ c, c ∈ RESULT_COLUMNS) (py "CSM Name" :: SUMMARY_COLS).
Proof. apply (bool_decide_unpack _). vm_compute. exact I. Qed.

Section RunOutcomeFacts.

Variable unicode_lower : pystr → pystr.
Variable list_models : pystr → option (list ModelInfo).
Context {Page : Type}.
Variable PdfReader : list byte → option (list Page).
Variable extract_text : Page → option pystr.
Variable backend : list Request → Request → GenResult.
Variable to_csv : DataFrame pystr → pystr.
Variable json_loads : pystr → option value.

(** What the second half of the run does on complete records. *)
Lemma summarize_effect (model : GenerativeModel)
    (results : list (gmap pystr pystr)) (w : World) :
  results ≠ [] →
  Forall (λ d, dom d = list_to_set RESULT_COLUMNS) results →
  ∃ (rs : list (list pystr)) (names : list pystr) (vs : list value)
    (reqs : list Request),
    (summarize backend to_csv json_loads model results w).1
    = Completed {| columns := RESULT_COLUMNS; rows := rs |} vs
    ∧ length rs = length results
    ∧ Forall2 (λ (d : gmap pystr pystr) n, d !! py "CSM Name" = Some n) results names
    ∧ Forall2 (λ csm v, v = summary_sentinel csm
                        ∨ ∃ t, json_loads (clean_reply t) = Some v)
        (unique names) vs
    ∧ requests (summarize backend to_csv json_loads model results w).2
      = requests w ++ reqs
    ∧ length reqs = length (unique names)
    ∧ total_pause (summarize backend to_csv json_loads model results w).2
      = (total_pause w + 1500 * N.of_nat (length (unique names)))%N
    ∧ Forall2 (λ csm r,
                 ∃ cols, csm_rows {| columns := RESULT_COLUMNS; rows := rs |} csm
                         = Some cols
                         ∧ r = summary_request model csm (to_csv cols))
        (unique names) reqs
    ∧ (∀ i csm r v,
         unique names !! i = Some csm → reqs !! i = Some r → vs !! i = Some v →
         summary_for json_loads csm (backend (requests w ++ take i reqs) r) v).
Proof.
  intros Hne Hres. unfold summarize.
  destruct results as [|d0 results0] eqn:Hresults; [done|]. rewrite <- Hresults in *.
  destruct (frame_of_results_complete results Hres) as (rs & -> & Hrs).
  destruct (unique_csms_complete results rs Hrs) as (names & Hnames & ->).
  rewrite bind_run.
  destruct (summaries_loop_effect backend to_csv json_loads model
              {| columns := RESULT_COLUMNS; rows := rs |} (unique names) [] w
              RESULT_COLUMNS_enough)
    as (vs & reqs & Hloop & Hreq & Hpause & Hvs & Hreqs & Hsum).
  exists rs, names, vs, reqs. rewrite Hloop. cbn [ret fst snd app].
  split_and!; try done.
  - symmetry. by apply (Forall2_length _ _ _ Hrs).
  - symmetry. by apply (Forall2_length _ _ _ Hreqs).
Qed.

(** X10. With at least one call record, the second half of the run ends
    with the frame of the records, one row each, and one summary for each
    distinct 'CSM Name', in order of first appearance.  One request is sent
    per salesperson, about that salesperson's rows, and the summary at
    position [i] is what the service answers to the request at position [i],
    having seen the requests before it: the parsed text when the cleaned
    reply parses, the sentinel of that salesperson otherwise.  One pause of
    1.5 s is taken per salesperson. *)
Theorem one_summary_per_salesperson (model : GenerativeModel)
    (results : list (gmap pystr pystr)) (w : World) :
  results ≠ [] →
  Forall (λ d, ∃ name, call_record name d) results →
  ∃ (df : DataFrame pystr) (names : list pystr) (summaries : list value)
    (reqs : list Request),
    (summarize backend to_csv json_loads model results w).1 = Completed df summaries
    ∧ columns df = RESULT_COLUMNS
    ∧ length (rows df) = length results
    ∧ Forall2 (λ (d : gmap pystr pystr) n, d !! py "CSM Name" = Some n) results names
    ∧ NoDup (unique names)
    ∧ (∀ n, n ∈ unique names ↔ n ∈ names)
    ∧ unique names `sublist_of` names
    ∧ length summaries = length (unique names)
    ∧ requests (summarize backend to_csv json_loads model results w).2
      = requests w ++ reqs
    ∧ length reqs = length (unique names)
    ∧ Forall2 (λ csm r, ∃ cols, csm_rows df csm = Some cols
                                ∧ r = summary_request model csm (to_csv cols))
        (unique names) reqs
    ∧ (∀ i csm r v,
         unique names !! i = Some csm → reqs !! i = Some r →
         summaries !! i = Some v →
         summary_for json_loads csm (backend (requests w ++ take i reqs) r) v)
    ∧ total_pause (summarize backend to_csv json_loads model results w).2
      = (total_pause w + 1500 * N.of_nat (length (unique names)))%N.
Proof.
  intros Hne Hres.
  destruct (summarize_effect model results w Hne)
    as (rs & names & vs & reqs & Hout & Hrs & Hnames & Hvs & Hreq & Hreqs & Hpause
        & Hsent & Hsum).
  { eapply Forall_impl; [exact Hres|]. by intros d (name & Hdom & _). }
  destruct (unique_spec names) as (Hnodup & Helem & Hsub).
  exists {| columns := RESULT_COLUMNS; rows := rs |}, names, vs, reqs.
  split_and!; try done.
  symmetry. exact (Forall2_length _ _ _ Hvs).
Qed.

(** X11. A run over [n] files sends at most [4 n] requests: none when no
    model is found, at most [3 n] for the analyses, and one per salesperson
    after that.  Up to the list of summaries no exception leaves the handler:
    the frame built from the records always has the columns that
    [generate_csm_summary] reads outside its [try].  When the run completes,
    the frame has between 1 and [n] rows and there are between 1 and as many
    summaries as rows. *)
Theorem run_cost_and_outcome (api_key : pystr) (uploaded_files : list UploadedFile)
    (w : World) :
  let out :=
    run_handler unicode_lower list_models Page PdfReader extract_text backend
      to_csv json_loads api_key uploaded_files w in
  out.1 ≠ Raised
  ∧ requests w `prefix_of` requests out.2
  ∧ length (requests out.2) ≤ length (requests w) + 4 * length uploaded_files
  ∧ (out.1 = NoModel → out.2 = w)
  ∧ (out.1 = NoResults →
     length (requests out.2) ≤ length (requests w) + 3 * length uploaded_files)
  ∧ (∀ df summaries, out.1 = Completed df summaries →
       columns df = RESULT_COLUMNS
       ∧ 0 < length (rows df) ∧ length (rows df) ≤ length uploaded_files
       ∧ 0 < length summaries ∧ length summaries ≤ length (rows df)).
Proof.
  intros out. subst out. unfold run_handler.
  destruct (get_gemini_model unicode_lower list_models api_key) as [model|].
  2: { cbn [ret fst snd]. split_and!; try done; lia. }
  rewrite bind_run.
  destruct (process_files_effect PdfReader extract_text backend model
              uploaded_files [] w)
    as (new & reqs & Hres & Hreq & _ & _ & Hreqs & Hnew & _ & Hrec & _).
  cbn [app] in Hres. rewrite Hres.
  destruct (decide (new = [])) as [->|Hne].
  - cbn [summarize ret fst snd]. rewrite Hreq, length_app.
    split_and!; try done; try lia. by eexists.
  - destruct (summarize_effect model new
                (process_files Page PdfReader extract_text backend model
                   uploaded_files [] w).2 Hne)
      as (rs & names & vs & reqs' & Hout & Hrs & Hnames & Hvs & Hreq' & Hreqs' & _).
    { eapply Forall_impl; [exact Hrec|]. by intros d (f & _ & Hdom & _). }
    rewrite Hout, Hreq', Hreq, !length_app, Hreqs'.
    destruct (unique_spec names) as (_ & Helem & Hsub).
    apply sublist_length in Hsub.
    pose proof (Forall2_length _ _ _ Hnames) as Hlen.
    pose proof (Forall2_length _ _ _ Hvs) as Hlen'.
    assert (0 < length (unique names)) as Hpos.
    { destruct names as [|n names]; [destruct new; simpl in Hlen; done|].
      assert (n ∈ unique (n :: names)) as Hn
        by (apply Helem, elem_of_cons; by left).
      destruct (unique (n :: names)); [by apply elem_of_nil in Hn | simpl; lia]. }
    assert (0 < length new) by (destruct new; simpl; [done|lia]).
    split_and!; try done; try lia.
    + rewrite <- app_assoc. by eexists.
    + intros df summaries [= <- <-]. cbn [columns rows]. split_and!; [done|lia..].
Qed.

End RunOutcomeFacts.

Lemma one_summary_per_salesperson_witness :
  ∃ (df : DataFrame pystr) (summaries : list value),
    (summarize (replying fenced_reply) sample_to_csv sample_loads sample_model
       [sample_record] fresh_world).1 = Completed df summaries
    ∧ columns df = RESULT_COLUMNS
    ∧ length (rows df) = 1
    ∧ length summaries = 1
    ∧ ∀ v, summaries !! 0 = Some v → v = sample_json_value.
Proof.
  destruct (one_summary_per_salesperson (replying fenced_reply) sample_to_csv
              sample_loads sample_model [sample_record] fresh_world)
    as (df & names & summaries & reqs & Hout & Hcols & Hrows & Hnames & _ & _ & _
        & Hlen & _ & _ & Hreqs & Hsum & _).
  - discriminate.
  - apply Forall_singleton. exists (py "call1.pdf").
    apply call_record_insert, record_of_dom, pad_length.
  - apply Forall2_cons_inv_l in Hnames as (n & names' & Hn & Hnil & ->).
    apply Forall2_nil_inv_l in Hnil as ->.
    assert (unique [n] = [n]) as Hu by reflexivity. rewrite Hu in *.
    apply Forall2_cons_inv_l in Hreqs as (r & reqs' & _ & Hnil & ->).
    apply Forall2_nil_inv_l in Hnil as ->.
    exists df, summaries. split_and!; [exact Hout | exact Hcols | exact Hrows
                                      | exact Hlen |].
    intros v Hv.
    destruct (Hsum 0 n r v eq_refl eq_refl Hv) as (Hparsed & _).
    apply (Hparsed fenced_reply); [reflexivity|]. vm_compute. reflexivity.
Defined.

Lemma run_cost_and_outcome_witness :
  (run_handler (λ s, s) (λ _, Some sample_models) pystr sample_reader Some
     (replying ten_segments) sample_to_csv sample_loads (py "key") [sample_file]
     fresh_world).1 ≠ Raised
  ∧ length
      (requests
         (run_handler (λ s, s) (λ _, Some sample_models) pystr sample_reader Some
            (replying ten_segments) sample_to_csv sample_loads (py "key")
            [sample_file] fresh_world).2) ≤ 4.
Proof.
  destruct (run_cost_and_outcome (λ s, s) (λ _, Some sample_models) sample_reader Some
              (replying ten_segments) sample_to_csv sample_loads (py "key")
              [sample_file] fresh_world) as (Hraise & _ & Hcost & _).
  split; [exact Hraise | exact Hcost].
Defined.

(** ** Report Builder: what the workbook holds *)







(** ** Summary Generator: removing the fence *)

Lemma isspace_not_fence (c : N) :
  isspace c = true → (96 =? c)%N = false ∧ (106 =? c)%N = false.
Proof.
  intros Hc. split.
  - destruct (N.eqb_spec 96 c) as [<-|]; [|done]. by vm_compute in Hc.
  - destruct (N.eqb_spec 106 c) as [<-|]; [|done]. by vm_compute in Hc.
Qed.

Lemma blank_no_backtick (sp : pystr) : forallb isspace sp = true → 96%N ∉ sp.
Proof.
  intros Hsp Hin. rewrite forallb_forall in Hsp.
  apply list_elem_of_In, Hsp in Hin. by vm_compute in Hin.
Qed.

(** A closing fence followed by whitespace is not an opening fence. *)
Lemma closing_fence_is_kept (cur post : pystr) :
  forallb isspace post = true →
  split_scan (96%N :: [96; 96; 106; 115; 111; 110]%N) 0 cur ([96; 96; 96]%N ++ post)
  = [reverse cur ++ [96; 96; 96]%N ++ post].
Proof.
  intros Hpost.
  assert (split_scan (96%N :: [96; 96; 106; 115; 111; 110]%N) 0 cur
            ([96; 96; 96]%N ++ post)
          = split_scan (96%N :: [96; 96; 106; 115; 111; 110]%N) 0
              (reverse [96; 96; 96]%N ++ cur) post) as ->.
  { destruct post as [|c post]; [done|].
    simpl in Hpost. apply andb_prop in Hpost as [Hc _].
    destruct (isspace_not_fence c Hc) as [H96 H106].
    cbn [app split_scan startswith]. rewrite !N.eqb_refl. cbn [andb].
    by rewrite H106, H96. }
  rewrite <- (app_nil_r post) at 1.
  rewrite split_scan_pass by by apply blank_no_backtick.
  cbn [split_scan]. by rewrite !reverse_app, !reverse_involutive, <- !app_assoc.
Qed.

(** X13. A reply that wraps its text in a fence, whitespace around it
    allowed, is unwrapped: when the text holds no backtick, the two
    replacements and the strip leave exactly the stripped text; a reply
    without fence is only stripped. *)
Theorem fenced_reply_is_unwrapped (body sp1 sp2 : pystr) :
  96%N ∉ body →
  forallb isspace sp1 = true → forallb isspace sp2 = true →
  clean_reply (sp1 ++ py "```json" ++ body ++ py "```" ++ sp2) = strip body
  ∧ clean_reply (sp1 ++ body ++ sp2) = strip body.
Proof.
  intros Hbody Hsp1 Hsp2.
  pose proof (blank_no_backtick sp1 Hsp1) as Hb1.
  pose proof (blank_no_backtick sp2 Hsp2) as Hb2.
  unfold clean_reply, replace, split.
  change (py "```json") with (96%N :: [96; 96; 106; 115; 111; 110]%N).
  change (py "```") with (96%N :: [96; 96]%N).
  assert (∀ (sep s : pystr), 96%N ∉ s →
            split_scan (96%N :: sep) 0 [] s = [s]) as Hplain.
  { intros sep s Hs. rewrite <- (app_nil_r s) at 1.
    rewrite split_scan_pass by done.
    cbn [split_scan]. by rewrite app_nil_r, reverse_involutive. }
  assert (96%N ∉ sp1 ++ body) as Hb1body.
  { intros [?|?]%elem_of_app; done. }
  split.
  - rewrite split_scan_pass by done.
    rewrite (split_scan_match [96; 96; 96; 106; 115; 111; 110]%N) by done.
    rewrite split_scan_pass by done.
    rewrite closing_fence_is_kept by done.
    rewrite !app_nil_r, !reverse_involutive. cbn [join EMPTY app].
    rewrite app_assoc.
    rewrite split_scan_pass by done.
    change (96%N :: 96%N :: 96%N :: sp2) with ([96; 96; 96]%N ++ sp2).
    rewrite (split_scan_match [96; 96; 96]%N) by done.
    rewrite Hplain by done.
    rewrite app_nil_r, reverse_involutive. cbn [join EMPTY app].
    by rewrite <- app_assoc, strip_spaces_l, strip_spaces_r.
  - assert (96%N ∉ sp1 ++ body ++ sp2) as Hall.
    { rewrite app_assoc. intros [?|?]%elem_of_app; done. }
    rewrite (Hplain _ _ Hall). cbn [join]. rewrite (Hplain _ _ Hall). cbn [join].
    by rewrite strip_spaces_l, strip_spaces_r.
Qed.

Lemma fenced_reply_is_unwrapped_witness :
  clean_reply fenced_reply = sample_json_text.
Proof.
  destruct (fenced_reply_is_unwrapped (NL ++ sample_json_text ++ NL) [] NL)
    as [Hfenced _].
  - apply (bool_decide_unpack _). vm_compute. exact I.
  - reflexivity.
  - reflexivity.
  - etrans; [|etrans; [exact Hfenced|]]; vm_compute; reflexivity.
Defined.

(** ** Call Analyzer: the delimiter never reaches a field *)

Lemma contains_drop (sub s : pystr) :
  contains sub s = true ↔ ∃ k, startswith sub (drop k s) = true.
Proof.
  induction s as [|c t IH].
  - simpl. rewrite orb_false_r. split; [intros H; by exists 0|].
    intros [k Hk]. by rewrite drop_nil in Hk.
  - cbn [contains]. rewrite orb_true_iff, IH. split.
    + intros [H|[k Hk]]; [by exists 0 | by exists (S k)].
    + intros [[|k] Hk]; [by left | right; by exists k].
Qed.

Lemma contains_infix (sub a m b : pystr) :
  contains sub (a ++ m ++ b) = false → contains sub m = false.
Proof.
  intros Hnone. destruct (contains sub m) eqn:Hm; [|done].
  apply contains_drop in Hm as [k Hk].
  assert (contains sub (a ++ m ++ b) = true) as Hyes; [|congruence].
  apply contains_drop. exists (length a + k).
  rewrite drop_app_add'; [|done].
  destruct (decide (k ≤ length m)) as [Hle|Hgt].
  - rewrite drop_app_le by done. by apply startswith_app.
  - rewrite drop_ge in Hk by lia. rewrite drop_app_ge by lia.
    destruct sub; [done|]. done.
Qed.

(** No separator starts inside a segment that [split_scan] returns. *)
Lemma split_scan_segments (sep : pystr) skip cur (s : pystr) :
  sep ≠ [] →
  (0 < skip → cur = []) →
  (∀ k, k < length cur → startswith sep (drop k (reverse cur ++ s)) = false) →
  Forall (λ seg, contains sep seg = false) (split_scan sep skip cur s).
Proof.
  intros Hsep. revert skip cur. induction s as [|c t IH]; intros skip cur Hskip Hcur.
  - cbn [split_scan]. apply Forall_singleton.
    destruct (contains sep (reverse cur)) eqn:Hc; [|done].
    apply contains_drop in Hc as [k Hk].
    destruct (decide (k < length cur)) as [Hlt|Hge].
    + specialize (Hcur k Hlt). rewrite app_nil_r in Hcur. congruence.
    + rewrite drop_ge in Hk by (rewrite length_reverse; lia). by destruct sep.
  - destruct skip as [|j].
    + cbn [split_scan]. destruct (startswith sep (c :: t)) eqn:Hsw.
      * apply Forall_cons. split.
        -- destruct (contains sep (reverse cur)) eqn:Hc; [|done].
           apply contains_drop in Hc as [k Hk].
           destruct (decide (k < length cur)) as [Hlt|Hge].
           ++ specialize (Hcur k Hlt).
              rewrite drop_app_le in Hcur by (rewrite length_reverse; lia).
              by rewrite (startswith_app _ _ _ Hk) in Hcur.
           ++ rewrite drop_ge in Hk by (rewrite length_reverse; lia). by destruct sep.
        -- apply IH; [done|]. intros k Hk. simpl in Hk. lia.
      * apply IH; [lia|]. intros k Hk.
        rewrite reverse_cons, <- app_assoc. cbn [app].
        destruct (decide (k < length cur)) as [Hlt|Hge]; [by apply Hcur|].
        simpl in Hk. replace k with (length (reverse cur)) by (rewrite length_reverse; lia).
        by rewrite drop_app_length.
    + cbn [split_scan]. rewrite (Hskip ltac:(lia)).
      apply IH; [done|]. intros k Hk. simpl in Hk. lia.
Qed.

Lemma split_segments (sep s : pystr) :
  sep ≠ [] → Forall (λ seg, contains sep seg = false) (split sep s).
Proof.
  intros Hsep. apply split_scan_segments; [done|lia|].
  intros k Hk. simpl in Hk. lia.
Qed.

(** X14. No value of the mapping [analyze_call] returns contains the
    delimiter "###": a value is cut out of a segment of the reply, between
    two delimiters, or is the placeholder. *)
Theorem field_values_hold_no_delimiter
    (backend : list Request → Request → GenResult) (model : GenerativeModel)
    (text : pystr) (w : World) (d : gmap pystr pystr) (key v : pystr) :
  (analyze_call backend model text w).1 = Some d →
  d !! key = Some v →
  contains SEP v = false.
Proof.
  rewrite analyze_call_run. simpl. intros Hd Hv.
  destruct (reply_text _) as [raw|]; [|done]. simpl in Hd.
  rewrite parse_reply_spec in Hd. injection Hd as <-.
  set (segs := split SEP (strip raw)) in *.
  pose proof (pad_length (map strip segs)) as Hlen.
  apply record_of_value in Hv as (i & Hkey & Hi); [|done].
  assert (i < 17) as Hlt.
  { apply lookup_lt_Some in Hkey. by rewrite FIELD_KEYS_length in Hkey. }
  rewrite pad_lookup in Hi by done. injection Hi as <-.
  rewrite list_lookup_fmap.
  destruct (segs !! i) as [seg|] eqn:Hseg; simpl; [|done].
  assert (contains SEP seg = false) as Hfree.
  { pose proof (split_segments SEP (strip raw) ltac:(done)) as Hall.
    rewrite Forall_forall in Hall. apply Hall.
    by apply (list_elem_of_lookup_2 _ i). }
  destruct (lstrip_split seg) as (sp & Hs & _).
  destruct (rstrip_split (lstrip seg)) as (sp' & Hs' & _).
  apply (contains_infix SEP sp (strip seg) sp').
  unfold strip. by rewrite <- Hs', <- Hs.
Qed.

Lemma field_values_hold_no_delimiter_witness :
  contains SEP (py "#b") = false.
Proof.
  apply (field_values_hold_no_delimiter (replying (py "a####b")) sample_model
           (py "call") fresh_world
           (record_of (pad (map strip (split SEP (strip (py "a####b"))))))
           (py "Customer Name") (py "#b")).
  - rewrite analyze_call_run. simpl. by rewrite parse_reply_spec.
  - vm_compute. reflexivity.
Defined.
